(** * Flux MCP server: the tool-call dispatcher of [src/index.ts]

    A shallow embedding of the request handler registered by
    [FluxServer.setupToolHandlers], of the two field validators it calls
    and of [runPythonCommand], together with the properties that the
    specification states about them.

    - JavaScript values are an inductive type; numbers are IEEE binary64
      values (Rocq's primitive floats), strings are the UTF-8 bytes of the
      JavaScript string.
    - [throw] is a sum type ([Result]); the [async] handler runs in a small
      monad that also records every [spawn] it performs.
    - A call of [spawn] either throws at once or yields a child process,
      which is given by the events it emits, in order. *)

From Stdlib Require Import Ascii String ZArith QArith Qround Floats DecimalString.
From stdpp Require Import base option list strings gmap.

Local Open Scope Z_scope.
Set Warnings "-inexact-float".

(** ** JavaScript strings *)

Module Str.

Definition ch (n : nat) : ascii := ascii_of_nat n.

(** WhiteSpace and LineTerminator code points below U+0080:
    TAB, LF, VT, FF, CR and SP. *)
Definition isAsciiSpace (c : ascii) : bool :=
  let n := nat_of_ascii c in
  ((9 <=? n)%nat && (n <=? 13)%nat) || (n =? 32)%nat.

(** U+00A0 is encoded on two bytes, C2 A0. *)
Definition isSpace2 (c1 c2 : ascii) : bool :=
  (nat_of_ascii c1 =? 194)%nat && (nat_of_ascii c2 =? 160)%nat.

(** The remaining white space is encoded on three bytes: U+1680,
    U+2000..U+200A, U+2028, U+2029, U+202F, U+205F, U+3000, U+FEFF. *)
Definition isSpace3 (c1 c2 c3 : ascii) : bool :=
  let a := nat_of_ascii c1 in
  let b := nat_of_ascii c2 in
  let c := nat_of_ascii c3 in
  match a with
  | 225%nat => (b =? 154)%nat && (c =? 128)%nat
  | 226%nat =>
      ((b =? 128)%nat &&
         (((128 <=? c)%nat && (c <=? 138)%nat)
          || (c =? 168)%nat || (c =? 169)%nat || (c =? 175)%nat))
      || ((b =? 129)%nat && (c =? 159)%nat)
  | 227%nat => (b =? 128)%nat && (c =? 128)%nat
  | 239%nat => (b =? 187)%nat && (c =? 191)%nat
  | _ => false
  end.

(** [String.prototype.trimStart] *)
Fixpoint trimStart (s : string) : string :=
  match s with
  | EmptyString => EmptyString
  | String c1 s1 =>
      if isAsciiSpace c1 then trimStart s1
      else
        match s1 with
        | EmptyString => s
        | String c2 s2 =>
            if isSpace2 c1 c2 then trimStart s2
            else
              match s2 with
              | EmptyString => s
              | String c3 s3 =>
                  if isSpace3 c1 c2 c3 then trimStart s3 else s
              end
        end
  end.

(** The same scan over the reversed bytes, for [trimEnd]. *)
Fixpoint trimStartRev (s : string) : string :=
  match s with
  | EmptyString => EmptyString
  | String c1 s1 =>
      if isAsciiSpace c1 then trimStartRev s1
      else
        match s1 with
        | EmptyString => s
        | String c2 s2 =>
            if isSpace2 c2 c1 then trimStartRev s2
            else
              match s2 with
              | EmptyString => s
              | String c3 s3 =>
                  if isSpace3 c3 c2 c1 then trimStartRev s3 else s
              end
        end
  end.

Definition trimEnd (s : string) : string :=
  String.rev (trimStartRev (String.rev s)).

(** [String.prototype.trim] *)
Definition trim (s : string) : string := trimEnd (trimStart s).

(** [haystack.includes(needle)] *)
Fixpoint includes (needle haystack : string) : bool :=
  String.prefix needle haystack ||
  match haystack with
  | EmptyString => false
  | String _ rest => includes needle rest
  end.

End Str.

(** ** JavaScript numbers *)

Module Num.

Definition decimal (z : Z) : string := NilZero.string_of_int (Z.to_int z).

Definition digitCount (z : Z) : Z := Z.of_nat (String.length (decimal z)).

Fixpoint zeros (n : nat) : string :=
  match n with
  | O => ""
  | S n' => "0" +:+ zeros n'
  end.

Definition pow10 (t : Z) : Q := Qpower (10 # 1) t.
Definition pow2 (t : Z) : Q := Qpower (2 # 1) t.

(** The [n] of Number::toString: [10^(n-1) <= v < 10^n], for [v > 0]. *)
Definition magnitude (v : Q) : Z :=
  if Qle_bool 1 v then digitCount (Qfloor v)
  else 1 - digitCount (Qfloor (Qinv v)).

Definition Qlt_bool (a b : Q) : bool := negb (Qle_bool b a).

(** The reals that round to the double [m * 2^e] (round to nearest, ties
    to even): [c] lies between the midpoints to its two neighbours, the
    midpoints themselves included when [m] is even. *)
Definition roundsTo (m : positive) (e : Z) (c : Q) : bool :=
  let v := (inject_Z (Zpos m) * pow2 e)%Q in
  let up := pow2 (e - 1) in
  let down :=
    if (Zpos m =? 2 ^ 52) && (-1074 <? e) then pow2 (e - 2) else pow2 (e - 1) in
  let lo := (v - down)%Q in
  let hi := (v + up)%Q in
  if Z.even (Zpos m)
  then Qle_bool lo c && Qle_bool c hi
  else Qlt_bool lo c && Qlt_bool c hi.

(** The decimals with [k] digits next to [v], if one of them rounds
    to [v]; of two, the closer one. The result is the pair [(s, n)]. *)
Definition candidate (m : positive) (e : Z) (n k : Z) : option (Z * Z) :=
  let v := (inject_Z (Zpos m) * pow2 e)%Q in
  let unit := pow10 (n - k) in
  let sl := Qfloor (v / unit) in
  let sh := sl + 1 in
  let cl := (inject_Z sl * unit)%Q in
  let ch := (inject_Z sh * unit)%Q in
  let pick s := if s =? 10 ^ k then (1, n + 1) else (s, n) in
  match roundsTo m e cl, roundsTo m e ch with
  | true, true =>
      match Qcompare (v - cl) (ch - v) with
      | Lt => Some (pick sl)
      | Gt => Some (pick sh)
      | Eq => Some (pick (if Z.even sl then sl else sh))
      end
  | true, false => Some (pick sl)
  | false, true => Some (pick sh)
  | false, false => None
  end.

Fixpoint firstSome {A B : Type} (f : A -> option B) (l : list A) : option B :=
  match l with
  | [] => None
  | a :: l' => match f a with Some b => Some b | None => firstSome f l' end
  end.

(** The shortest digit string [s] (and its [n]) that reads back as the
    double [m * 2^e]; seventeen digits always suffice. *)
Definition shortest (m : positive) (e : Z) : Z * Z :=
  let v := (inject_Z (Zpos m) * pow2 e)%Q in
  let n := magnitude v in
  match firstSome (candidate m e n) (map Z.of_nat (seq 1 17)) with
  | Some sn => sn
  | None => (Qfloor (v / pow10 (n - 17)), n)
  end.

(** Steps 6 to 10 of Number::toString, radix 10. *)
Definition render (sn : Z * Z) : string :=
  let '(s, n) := sn in
  let ds := decimal s in
  let k := Z.of_nat (String.length ds) in
  if (k <=? n) && (n <=? 21) then ds +:+ zeros (Z.to_nat (n - k))
  else if (0 <? n) && (n <=? 21) then
    substring 0 (Z.to_nat n) ds +:+ "." +:+ substring (Z.to_nat n) (Z.to_nat (k - n)) ds
  else if (-6 <? n) && (n <=? 0) then "0." +:+ zeros (Z.to_nat (- n)) +:+ ds
  else
    let ex := n - 1 in
    let sign := if ex <? 0 then "-" else "+" in
    if k =? 1 then ds +:+ "e" +:+ sign +:+ decimal (Z.abs ex)
    else substring 0 1 ds +:+ "." +:+ substring 1 (Z.to_nat (k - 1)) ds
           +:+ "e" +:+ sign +:+ decimal (Z.abs ex).

(** [Number.prototype.toString()], which is also what a template
    literal applies to a number. *)
Definition toString (x : float) : string :=
  match Prim2SF x with
  | S754_nan => "NaN"
  | S754_zero _ => "0"
  | S754_infinity sign => if sign then "-Infinity" else "Infinity"
  | S754_finite sign m e => (if sign then "-" else "") +:+ render (shortest m e)
  end.

(** [isNaN(x)] *)
Definition isNaN (x : float) : bool := PrimFloat.is_nan x.

(** [x < y] and [x > y]; both are false when an operand is NaN. *)
Definition lt (x y : float) : bool := PrimFloat.ltb x y.
Definition gt (x y : float) : bool := PrimFloat.ltb y x.
Definition le (x y : float) : bool := PrimFloat.leb x y.

(** ToBoolean on a number: false for [+0], [-0] and [NaN]. *)
Definition truthy (x : float) : bool :=
  negb (PrimFloat.is_zero x || PrimFloat.is_nan x).

End Num.

(** ** JavaScript values, exceptions and promises *)

#[local] Unset Elimination Schemes.
Inductive JsValue : Type :=
  | VUndefined
  | VNull
  | VBool (b : bool)
  | VNumber (x : float)
  | VString (s : string)
  | VArray (items : list JsValue)
  | VObject (fields : list (string * JsValue)).
#[local] Set Elimination Schemes.

(** [typeof v] *)
Definition typeof (v : JsValue) : string :=
  match v with
  | VUndefined => "undefined"
  | VNull | VArray _ | VObject _ => "object"
  | VBool _ => "boolean"
  | VNumber _ => "number"
  | VString _ => "string"
  end.

(** ToBoolean, as applied by [if (v)] and [!v]. *)
Definition truthy (v : JsValue) : bool :=
  match v with
  | VUndefined | VNull => false
  | VBool b => b
  | VNumber x => Num.truthy x
  | VString s => negb (String.eqb s "")
  | VArray _ | VObject _ => true
  end.

(** The two codes of the SDK's [ErrorCode] that the server uses. *)
Inductive ErrorCode : Type := InvalidParams | MethodNotFound.

(** The exceptions that can be raised: the SDK's [McpError], a plain
    [Error], and the engine's [TypeError]. *)
Inductive Exn : Type :=
  | McpError (code : ErrorCode) (message : string)
  | Error (message : string)
  | TypeError (message : string).

(** [e instanceof McpError] *)
Definition instanceofMcpError (e : Exn) : bool :=
  match e with McpError _ _ => true | _ => false end.

(** The numbers of the two codes, as JSON-RPC has them. *)
Definition errorCodeNumber (code : ErrorCode) : Z :=
  match code with
  | InvalidParams => -32602
  | MethodNotFound => -32601
  end.

(** [e.message]. The constructor of [McpError] hands
    [`MCP error ${code}: ${message}`] to [Error]; the other two keep the
    text they were built with. *)
Definition message (e : Exn) : string :=
  match e with
  | McpError code m =>
      "MCP error " +:+ Num.decimal (errorCodeNumber code) +:+ ": " +:+ m
  | Error m | TypeError m => m
  end.

(** A synchronous computation returns or throws. *)
Inductive Result (A : Type) : Type :=
  | Ok (a : A)
  | Throw (e : Exn).
Arguments Ok {A} a.
Arguments Throw {A} e.

#[export] Instance Result_ret : MRet Result := fun A a => Ok a.
#[export] Instance Result_bind : MBind Result := fun A B f r =>
  match r with
  | Ok a => f a
  | Throw e => Throw e
  end.

(** A promise, looked at once nothing more can happen to it. *)
Inductive Promise (A : Type) : Type :=
  | Resolved (a : A)
  | Rejected (e : Exn)
  | Pending.
Arguments Resolved {A} a.
Arguments Rejected {A} e.
Arguments Pending {A}.

(** ** The field validators (index.ts, lines 87 to 126) *)

Definition validateRequiredString (value : JsValue) (fieldName : string)
  : Result string :=
  match value with
  | VString s =>
      if String.eqb (Str.trim s) ""
      then Throw (McpError InvalidParams
                    (fieldName +:+ " is required and must be a non-empty string"))
      else Ok s
  | _ => Throw (McpError InvalidParams
                  (fieldName +:+ " is required and must be a non-empty string"))
  end.

Definition validateNumber (value : JsValue) (fieldName : string)
    (min max : option float) : Result (option float) :=
  match value with
  | VUndefined | VNull => Ok None
  | VNumber x =>
      if Num.isNaN x
      then Throw (McpError InvalidParams (fieldName +:+ " must be a valid number"))
      else
        _ ← match min with
            | Some lo =>
                if Num.lt x lo
                then Throw (McpError InvalidParams
                              (fieldName +:+ " must be at least " +:+ Num.toString lo))
                else Ok tt
            | None => Ok tt
            end;
        _ ← match max with
            | Some hi =>
                if Num.gt x hi
                then Throw (McpError InvalidParams
                              (fieldName +:+ " must be at most " +:+ Num.toString hi))
                else Ok tt
            | None => Ok tt
            end;
        Ok (Some x)
  | _ => Throw (McpError InvalidParams (fieldName +:+ " must be a valid number"))
  end.

(** ** The process executor (index.ts, lines 45 to 85) *)

(** What a child process does, as seen by its listeners: the events it
    emits, in the order in which it emits them. *)
Inductive ChildEvent : Type :=
  | StdoutData (chunk : string)
  | StderrData (chunk : string)
  | ErrorEvent (message : string)
  | CloseEvent (code : option Z).

(** A call of [spawn(command, args, {cwd, env})]. *)
Record SpawnCall : Type := mkSpawn {
  command : string;
  argv : list JsValue;
  cwd : string
}.

(** An error that Node throws by itself: a [TypeError] (an argument that
    [spawn] refuses, such as a string with a null byte) or a plain
    [Error]. It is never an [McpError]. *)
Inductive NodeError : Type :=
  | ThrownTypeError (message : string)
  | ThrownError (message : string).

Definition ofNodeError (e : NodeError) : Exn :=
  match e with
  | ThrownTypeError m => TypeError m
  | ThrownError m => Error m
  end.

(** What a call of [spawn] does: it throws before any child exists, or it
    returns a child, which then emits its events. A process that cannot
    be started (no such file, no permission) is a child whose first event
    is ['error']. *)
Inductive SpawnResult : Type :=
  | SpawnThrows (e : NodeError)
  | SpawnChild (events : list ChildEvent).

(** What the server reads from its surroundings: [process.env.VIRTUAL_ENV],
    [this.fluxPath], and what each call of [spawn] does. *)
Record Env : Type := mkEnv {
  VIRTUAL_ENV : option string;
  fluxPath : string;
  spawn : SpawnCall -> SpawnResult
}.

(** The events of the child of a call; none when [spawn] throws. *)
Definition child (env : Env) (call : SpawnCall) : list ChildEvent :=
  match spawn env call with
  | SpawnChild events => events
  | SpawnThrows _ => []
  end.

(** An [async] computation: the calls of [spawn] it has made, and the
    state of its promise. *)
Definition Async (A : Type) : Type := (list SpawnCall * Promise A)%type.

#[export] Instance Async_ret : MRet Async := fun A a => ([], Resolved a).
#[export] Instance Async_bind : MBind Async := fun A B f r =>
  match r with
  | (calls, Resolved a) => let '(calls', p) := f a in (calls ++ calls', p)
  | (calls, Rejected e) => (calls, Rejected e)
  | (calls, Pending) => (calls, Pending)
  end.

(** A synchronous step inside an [async] function. *)
Definition sync {A : Type} (r : Result A) : Async A :=
  match r with
  | Ok a => ([], Resolved a)
  | Throw e => ([], Rejected e)
  end.

(** The closure state of the promise executor: the two accumulators and
    the promise under construction. *)
Record Listener : Type := mkListener {
  output : string;
  errorOutput : string;
  settled : Promise string
}.

(** [resolve] and [reject] act on a pending promise only. *)
Definition settle (st : Listener) (p : Promise string) : Listener :=
  match settled st with
  | Pending => mkListener (output st) (errorOutput st) p
  | _ => st
  end.

(** A template literal applied to the [code] of a ['close'] event. *)
Definition codeToString (code : option Z) : string :=
  match code with
  | Some c => Num.decimal c
  | None => "null"
  end.

(** The four listeners of lines 65 to 83. *)
Definition onEvent (st : Listener) (ev : ChildEvent) : Listener :=
  match ev with
  | StdoutData data => mkListener (output st +:+ data) (errorOutput st) (settled st)
  | StderrData data => mkListener (output st) (errorOutput st +:+ data) (settled st)
  | ErrorEvent msg =>
      settle st (Rejected (Error ("Failed to spawn Python process: " +:+ msg)))
  | CloseEvent code =>
      match code with
      | Some 0 => settle st (Resolved (output st))
      | _ =>
          settle st (Rejected (Error ("Flux command failed (exit code "
                                        +:+ codeToString code +:+ "): "
                                        +:+ errorOutput st)))
      end
  end.

Definition listen (events : list ChildEvent) : Listener :=
  foldl onEvent (mkListener "" "" Pending) events.

(** The interpreter of the virtual environment, if one is set. *)
Definition pythonPath (env : Env) : string :=
  match VIRTUAL_ENV env with
  | Some venv => if String.eqb venv "" then "python3" else venv +:+ "/bin/python"
  | None => "python3"
  end.

(** [args] is [None] for a missing ([undefined] or [null]) vector. The
    call of [spawn] sits inside the executor of the promise, before any
    listener is attached: when it throws, the promise is rejected with the
    error it threw. *)
Definition runPythonCommand (env : Env) (args : option (list JsValue))
  : Async string :=
  match args with
  | None | Some [] => ([], Rejected (Error "No command arguments provided"))
  | Some (a :: rest) =>
      let call := mkSpawn (pythonPath env) (VString "fluxcli.py" :: a :: rest) (fluxPath env) in
      match spawn env call with
      | SpawnThrows e => ([call], Rejected (ofNodeError e))
      | SpawnChild events => ([call], settled (listen events))
      end
  end.

(** ** The tool catalogue (index.ts, lines 129 to 287) *)

Record Property : Type := mkProperty {
  propName : string;
  propType : string;
  propEnum : option (list string);
  propDefault : option JsValue
}.

Record Tool : Type := mkTool {
  toolName : string;
  properties : list Property;
  required : list string
}.

Definition modelEnum : list string :=
  ["flux.1.1-pro"; "flux.1-pro"; "flux.1-dev"; "flux.1.1-ultra"].

Definition tools : list Tool :=
  [ mkTool "generate"
      [ mkProperty "prompt" "string" None None;
        mkProperty "model" "string" (Some modelEnum) (Some (VString "flux.1.1-pro"));
        mkProperty "aspect_ratio" "string"
          (Some ["1:1"; "4:3"; "3:4"; "16:9"; "9:16"]) None;
        mkProperty "width" "number" None None;
        mkProperty "height" "number" None None;
        mkProperty "output" "string" None (Some (VString "generated.jpg")) ]
      [ "prompt" ];
    mkTool "img2img"
      [ mkProperty "image" "string" None None;
        mkProperty "prompt" "string" None None;
        mkProperty "model" "string" (Some modelEnum) (Some (VString "flux.1.1-pro"));
        mkProperty "strength" "number" None (Some (VNumber 0.85));
        mkProperty "width" "number" None None;
        mkProperty "height" "number" None None;
        mkProperty "output" "string" None (Some (VString "outputs/generated.jpg"));
        mkProperty "name" "string" None None ]
      [ "image"; "prompt"; "name" ];
    mkTool "inpaint"
      [ mkProperty "image" "string" None None;
        mkProperty "prompt" "string" None None;
        mkProperty "mask_shape" "string" (Some ["circle"; "rectangle"])
          (Some (VString "circle"));
        mkProperty "position" "string" (Some ["center"; "ground"])
          (Some (VString "center"));
        mkProperty "output" "string" None (Some (VString "inpainted.jpg")) ]
      [ "image"; "prompt" ];
    mkTool "control"
      [ mkProperty "type" "string" (Some ["canny"; "depth"; "pose"]) None;
        mkProperty "image" "string" None None;
        mkProperty "prompt" "string" None None;
        mkProperty "steps" "number" None (Some (VNumber 50));
        mkProperty "guidance" "number" None None;
        mkProperty "output" "string" None None ]
      [ "type"; "image"; "prompt" ] ].

(** ** The call handler (index.ts, lines 289 to 405) *)

(** [request.params.arguments]: an object, kept as a finite map from its
    keys to their values. *)
Abbreviation RawArguments := (gmap string JsValue).

Record CallToolRequest : Type := mkRequest {
  name : string;
  arguments : option RawArguments
}.

Record TextContent : Type := mkText {
  contentType : string;
  text : string
}.

Record ToolResponse : Type := mkResponse {
  content : list TextContent;
  isError : option bool
}.

(** [args.key]; reading a property of [undefined] is a [TypeError] (the
    text is V8's). A key that the object lacks reads as [undefined]. *)
Definition getProp (args : option RawArguments) (key : string) : Result JsValue :=
  match args with
  | Some obj => Ok (default VUndefined (obj !! key))
  | None =>
      Throw (TypeError ("Cannot read properties of undefined (reading '"
                          +:+ key +:+ "')"))
  end.

(** [if (v) cmdArgs.push(flag, v)] *)
Definition pushIfTruthy (cmdArgs : list JsValue) (flag : string) (v : JsValue)
  : list JsValue :=
  if truthy v then cmdArgs ++ [VString flag; v] else cmdArgs.

(** [if (n) cmdArgs.push(flag, n.toString())] *)
Definition pushNumberIfTruthy (cmdArgs : list JsValue) (flag : string)
    (n : option float) : list JsValue :=
  match n with
  | Some x =>
      if Num.truthy x then cmdArgs ++ [VString flag; VString (Num.toString x)]
      else cmdArgs
  | None => cmdArgs
  end.

(** [if (n !== undefined) cmdArgs.push(flag, n.toString())] *)
Definition pushNumberIfDefined (cmdArgs : list JsValue) (flag : string)
    (n : option float) : list JsValue :=
  match n with
  | Some x => cmdArgs ++ [VString flag; VString (Num.toString x)]
  | None => cmdArgs
  end.

(** Lines 293 to 307. *)
Definition generateCmdArgs (args : option RawArguments) : Result (list JsValue) :=
  a_prompt ← getProp args "prompt";
  prompt ← validateRequiredString a_prompt "prompt";
  a_width ← getProp args "width";
  width ← validateNumber a_width "width" (Some 256%float) (Some 2048%float);
  a_height ← getProp args "height";
  height ← validateNumber a_height "height" (Some 256%float) (Some 2048%float);
  let cmdArgs := [VString "generate"] in
  let cmdArgs := cmdArgs ++ [VString "--prompt"; VString prompt] in
  a_model ← getProp args "model";
  let cmdArgs := pushIfTruthy cmdArgs "--model" a_model in
  a_aspect_ratio ← getProp args "aspect_ratio";
  let cmdArgs := pushIfTruthy cmdArgs "--aspect-ratio" a_aspect_ratio in
  let cmdArgs := pushNumberIfTruthy cmdArgs "--width" width in
  let cmdArgs := pushNumberIfTruthy cmdArgs "--height" height in
  a_output ← getProp args "output";
  let cmdArgs := pushIfTruthy cmdArgs "--output" a_output in
  Ok cmdArgs.

(** Lines 315 to 334. *)
Definition img2imgCmdArgs (args : option RawArguments) : Result (list JsValue) :=
  a_image ← getProp args "image";
  image ← validateRequiredString a_image "image";
  a_prompt ← getProp args "prompt";
  prompt ← validateRequiredString a_prompt "prompt";
  a_name ← getProp args "name";
  name ← validateRequiredString a_name "name";
  a_strength ← getProp args "strength";
  strength ← validateNumber a_strength "strength" (Some 0%float) (Some 1%float);
  a_width ← getProp args "width";
  width ← validateNumber a_width "width" (Some 256%float) (Some 2048%float);
  a_height ← getProp args "height";
  height ← validateNumber a_height "height" (Some 256%float) (Some 2048%float);
  let cmdArgs := [VString "img2img"] in
  let cmdArgs := cmdArgs ++ [VString "--image"; VString image] in
  let cmdArgs := cmdArgs ++ [VString "--prompt"; VString prompt] in
  let cmdArgs := cmdArgs ++ [VString "--name"; VString name] in
  a_model ← getProp args "model";
  let cmdArgs := pushIfTruthy cmdArgs "--model" a_model in
  let cmdArgs := pushNumberIfDefined cmdArgs "--strength" strength in
  let cmdArgs := pushNumberIfTruthy cmdArgs "--width" width in
  let cmdArgs := pushNumberIfTruthy cmdArgs "--height" height in
  a_output ← getProp args "output";
  let cmdArgs := pushIfTruthy cmdArgs "--output" a_output in
  Ok cmdArgs.

(** Lines 342 to 352. *)
Definition inpaintCmdArgs (args : option RawArguments) : Result (list JsValue) :=
  a_image ← getProp args "image";
  image ← validateRequiredString a_image "image";
  a_prompt ← getProp args "prompt";
  prompt ← validateRequiredString a_prompt "prompt";
  let cmdArgs := [VString "inpaint"] in
  let cmdArgs := cmdArgs ++ [VString "--image"; VString image] in
  let cmdArgs := cmdArgs ++ [VString "--prompt"; VString prompt] in
  a_mask_shape ← getProp args "mask_shape";
  let cmdArgs := pushIfTruthy cmdArgs "--mask-shape" a_mask_shape in
  a_position ← getProp args "position";
  let cmdArgs := pushIfTruthy cmdArgs "--position" a_position in
  a_output ← getProp args "output";
  let cmdArgs := pushIfTruthy cmdArgs "--output" a_output in
  Ok cmdArgs.

(** Lines 360 to 376. *)
Definition controlCmdArgs (args : option RawArguments) : Result (list JsValue) :=
  a_type ← getProp args "type";
  type ← validateRequiredString a_type "type";
  a_image ← getProp args "image";
  image ← validateRequiredString a_image "image";
  a_prompt ← getProp args "prompt";
  prompt ← validateRequiredString a_prompt "prompt";
  a_steps ← getProp args "steps";
  steps ← validateNumber a_steps "steps" (Some 1%float) (Some 100%float);
  a_guidance ← getProp args "guidance";
  guidance ← validateNumber a_guidance "guidance" (Some 0%float) (Some 100%float);
  let cmdArgs := [VString "control"] in
  let cmdArgs := cmdArgs ++ [VString "--type"; VString type] in
  let cmdArgs := cmdArgs ++ [VString "--image"; VString image] in
  let cmdArgs := cmdArgs ++ [VString "--prompt"; VString prompt] in
  let cmdArgs := pushNumberIfTruthy cmdArgs "--steps" steps in
  let cmdArgs := pushNumberIfDefined cmdArgs "--guidance" guidance in
  a_output ← getProp args "output";
  let cmdArgs := pushIfTruthy cmdArgs "--output" a_output in
  Ok cmdArgs.

(** [{ content: [{ type: 'text', text: output }] }] *)
Definition successResponse (output : string) : ToolResponse :=
  mkResponse [mkText "text" output] None.

(** [{ content: [{ type: 'text', text: `Error: ${...}` }], isError: true }] *)
Definition errorResponse (error : Exn) : ToolResponse :=
  mkResponse [mkText "text" ("Error: " +:+ message error)] (Some true).

(** The [catch] block, lines 386 to 404: an [McpError] is thrown again,
    anything else becomes an ordinary response. *)
Definition catchBlock (body : Async ToolResponse) : Async ToolResponse :=
  match body with
  | (calls, Rejected error) =>
      if instanceofMcpError error then (calls, Rejected error)
      else (calls, Resolved (errorResponse error))
  | _ => body
  end.

(** The tail shared by the four cases: run the command, wrap its output. *)
Definition runAndRespond (env : Env) (cmdArgs : Result (list JsValue))
  : Async ToolResponse :=
  cmdArgs ← sync cmdArgs;
  output ← runPythonCommand env (Some cmdArgs);
  mret (successResponse output).

(** The handler registered for [CallToolRequestSchema]. *)
Definition handleCall (env : Env) (request : CallToolRequest)
  : Async ToolResponse :=
  catchBlock
    (if String.eqb (name request) "generate" then
       runAndRespond env (generateCmdArgs (arguments request))
     else if String.eqb (name request) "img2img" then
       runAndRespond env (img2imgCmdArgs (arguments request))
     else if String.eqb (name request) "inpaint" then
       runAndRespond env (inpaintCmdArgs (arguments request))
     else if String.eqb (name request) "control" then
       runAndRespond env (controlCmdArgs (arguments request))
     else
       sync (Throw (McpError MethodNotFound ("Unknown tool: " +:+ name request)))).

(** ** The operation schemas, in the specification's words

    The specification describes the handler through a table of operation
    schemas (its section 4.2), a translator over that table (4.3) and one
    rule per field (4.1). These definitions follow that text; the theorems
    below compare them with the handler above. *)

Module Spec.

Inductive OperationName : Type := generate | img2img | inpaint | control.

Definition operationName (op : OperationName) : string :=
  match op with
  | generate => "generate"
  | img2img => "img2img"
  | inpaint => "inpaint"
  | control => "control"
  end.

Definition operations : list OperationName := [generate; img2img; inpaint; control].

Inductive FieldRule : Type :=
  | RequiredString
  | OptionalNumber (min max : float)
  | OptionalEnum (allowed : list string)
  | OptionalString.

Record Field : Type := mkField {
  fieldName : string;
  rule : FieldRule;
  isRequired : bool
}.

(** The flag of a field is its name in hyphenated form. *)
Fixpoint hyphenate (s : string) : string :=
  match s with
  | EmptyString => EmptyString
  | String c rest =>
      String (if Ascii.eqb c "_"%char then "-"%char else c) (hyphenate rest)
  end.

Definition cliFlag (f : Field) : string := "--" +:+ hyphenate (fieldName f).

Definition required (n : string) : Field := mkField n RequiredString true.
Definition number (n : string) (lo hi : float) : Field :=
  mkField n (OptionalNumber lo hi) false.
Definition enum (n : string) (allowed : list string) : Field :=
  mkField n (OptionalEnum allowed) false.
Definition text (n : string) : Field := mkField n OptionalString false.

Definition schema (op : OperationName) : list Field :=
  match op with
  | generate =>
      [ required "prompt";
        enum "model" ["flux.1.1-pro"; "flux.1-pro"; "flux.1-dev"; "flux.1.1-ultra"];
        enum "aspect_ratio" ["1:1"; "4:3"; "3:4"; "16:9"; "9:16"];
        number "width" 256 2048;
        number "height" 256 2048;
        text "output" ]
  | img2img =>
      [ required "image"; required "prompt"; required "name";
        enum "model" ["flux.1.1-pro"; "flux.1-pro"; "flux.1-dev"; "flux.1.1-ultra"];
        number "strength" 0 1;
        number "width" 256 2048;
        number "height" 256 2048;
        text "output" ]
  | inpaint =>
      [ required "image"; required "prompt";
        enum "mask_shape" ["circle"; "rectangle"];
        enum "position" ["center"; "ground"];
        text "output" ]
  | control =>
      [ mkField "type" (OptionalEnum ["canny"; "depth"; "pose"]) true;
        required "image"; required "prompt";
        number "steps" 1 100;
        number "guidance" 0 100;
        text "output" ]
  end.

Definition requiredFields (op : OperationName) : list Field :=
  filter (fun f => isRequired f = true) (schema op).

(** The raw value of a field: [undefined] when the caller left it out. *)
Definition raw (args : RawArguments) (f : Field) : JsValue :=
  default VUndefined (args !! fieldName f).

(** A value is absent when it is [undefined] or [null]. *)
Definition isSet (v : JsValue) : bool :=
  match v with
  | VUndefined | VNull => false
  | _ => true
  end.

Definition isNonBlankString (v : JsValue) : bool :=
  match v with
  | VString s => negb (String.eqb (Str.trim s) "")
  | _ => false
  end.

Definition isFiniteInRange (lo hi : float) (v : JsValue) : bool :=
  match v with
  | VNumber x => PrimFloat.is_finite x && negb (Num.lt x lo) && negb (Num.gt x hi)
  | _ => false
  end.

Definition isMember (allowed : list string) (v : JsValue) : bool :=
  match v with
  | VString s => bool_decide (s ∈ allowed)
  | _ => false
  end.

(** The value fails the rule of its field. *)
Definition violates (f : Field) (v : JsValue) : bool :=
  match rule f with
  | RequiredString => negb (isNonBlankString v)
  | OptionalNumber lo hi => isSet v && negb (isFiniteInRange lo hi v)
  | OptionalEnum allowed => if isSet v then negb (isMember allowed v) else isRequired f
  | OptionalString => false
  end.

(** The value of a field as a token: the number of a numeric field in
    decimal form, any other value as it is. *)
Definition render (f : Field) (v : JsValue) : JsValue :=
  match rule f, v with
  | OptionalNumber _ _, VNumber x => VString (Num.toString x)
  | _, _ => v
  end.

(** The translator of section 4.3, for a given notion of presence. *)
Definition tokens (present : Field -> JsValue -> bool) (args : RawArguments)
    (f : Field) : list JsValue :=
  if present f (raw args f) then [VString (cliFlag f); render f (raw args f)] else [].

Definition commandVector (present : Field -> JsValue -> bool)
    (op : OperationName) (args : RawArguments) : list JsValue :=
  VString (operationName op) :: flat_map (tokens present args) (schema op).


End Spec.

(** ** The handler, seen through the schemas *)

(** The command builder of an operation. *)
Definition cmdArgsFor (op : Spec.OperationName) (args : option RawArguments)
  : Result (list JsValue) :=
  match op with
  | Spec.generate => generateCmdArgs args
  | Spec.img2img => img2imgCmdArgs args
  | Spec.inpaint => inpaintCmdArgs args
  | Spec.control => controlCmdArgs args
  end.

(** Presence as the handler decides it: a number is present when it is
    supplied, any other value when it is truthy. *)
Definition emitted (f : Spec.Field) (v : JsValue) : bool :=
  match Spec.rule f with
  | Spec.OptionalNumber _ _ => Spec.isSet v
  | _ => truthy v
  end.

(** The rules whose failure the handler detects: every numeric rule, and
    for a required field that it is a string with a non-empty trimmed
    form. *)
Definition rejects (f : Spec.Field) (v : JsValue) : bool :=
  match Spec.rule f with
  | Spec.OptionalEnum _ => Spec.isRequired f && negb (Spec.isNonBlankString v)
  | _ => Spec.violates f v
  end.

(** The calls of [spawn] a run has made, and how its promise ended. *)
Definition spawned {A : Type} (run : Async A) : list SpawnCall := fst run.
Definition outcome {A : Type} (run : Async A) : Promise A := snd run.

(** The data events of a trace, concatenated. *)
Fixpoint stdoutOf (events : list ChildEvent) : string :=
  match events with
  | [] => ""
  | StdoutData d :: rest => d +:+ stdoutOf rest
  | _ :: rest => stdoutOf rest
  end.

Fixpoint stderrOf (events : list ChildEvent) : string :=
  match events with
  | [] => ""
  | StderrData d :: rest => d +:+ stderrOf rest
  | _ :: rest => stderrOf rest
  end.

Definition isData (ev : ChildEvent) : bool :=
  match ev with
  | StdoutData _ | StderrData _ => true
  | _ => false
  end.

(** The command of a call that passed validation, as it is spawned. *)
Definition spawnOf (env : Env) (cmdArgs : list JsValue) : SpawnCall :=
  mkSpawn (pythonPath env) (VString "fluxcli.py" :: cmdArgs) (fluxPath env).

(** Zeros and finite values, among the binary64 values. *)
Definition SFfinite (f : spec_float) : bool :=
  match f with
  | S754_zero _ | S754_finite _ _ _ => true
  | _ => false
  end.

(** The message of [validateRequiredString]. *)
Definition requiredMessage (fieldName : string) : string :=
  fieldName +:+ " is required and must be a non-empty string".

(** The first field, in schema order, whose value the handler rejects. *)
Definition firstRejected (op : Spec.OperationName) (args : RawArguments)
  : option Spec.Field :=
  find (fun f => rejects f (Spec.raw args f)) (Spec.schema op).

(** A command builder stops at the first rejected field, or else produces
    the command vector of the schema. *)
Definition builds (op : Spec.OperationName) (args : RawArguments) : Prop :=
  match firstRejected op args with
  | Some f =>
      exists reason,
        cmdArgsFor op (Some args)
        = Throw (McpError InvalidParams (Spec.fieldName f +:+ reason))
  | None => cmdArgsFor op (Some args) = Ok (Spec.commandVector emitted op args)
  end.

(** The promise of [runPythonCommand] once [spawn] has been called. *)
Definition spawnOutcome (env : Env) (call : SpawnCall) : Promise string :=
  match spawn env call with
  | SpawnThrows e => Rejected (ofNodeError e)
  | SpawnChild events => settled (listen events)
  end.

(** What the handler answers, once the promise of the command is known. *)
Definition respond (p : Promise string) : Promise ToolResponse :=
  match p with
  | Resolved out => Resolved (successResponse out)
  | Rejected e =>
      if instanceofMcpError e then Rejected e else Resolved (errorResponse e)
  | Pending => Pending
  end.

(** A property of the catalogue agrees with a field of the schema: same
    name, same enumeration, and the type that the rule asks for. *)
Definition propertyMatches (f : Spec.Field) (p : Property) : bool :=
  String.eqb (propName p) (Spec.fieldName f)
  && match Spec.rule f, propEnum p with
     | Spec.OptionalEnum a, Some b =>
         bool_decide (a = b) && String.eqb (propType p) "string"
     | Spec.OptionalNumber _ _, None => String.eqb (propType p) "number"
     | (Spec.RequiredString | Spec.OptionalString), None =>
         String.eqb (propType p) "string"
     | _, _ => false
     end.

(** A tool of the catalogue agrees with the schema of an operation: same
    name, same required fields in the same order, same fields. *)
Definition toolMatches (op : Spec.OperationName) (t : Tool) : bool :=
  String.eqb (toolName t) (Spec.operationName op)
  && bool_decide (required t = map Spec.fieldName (Spec.requiredFields op))
  && forallb (fun f => existsb (propertyMatches f) (properties t)) (Spec.schema op)
  && (length (properties t) =? length (Spec.schema op))%nat.

(** Surroundings for the examples: no virtual environment, and every
    process emits the given events. *)
Definition envOf (events : list ChildEvent) : Env :=
  mkEnv None "/opt/flux" (fun _ => SpawnChild events).


(** A string with a null byte in it. *)
Definition hasNullByte (v : JsValue) : bool :=
  match v with
  | VString s => existsb (fun c => Ascii.eqb c (Str.ch 0)) (list_ascii_of_string s)
  | _ => false
  end.

(** Surroundings in which [spawn] refuses a null byte in an argument, as
    Node does, with the given text; every other process emits the given
    events. *)
Definition refusingNullBytes (refusal : string) (events : list ChildEvent) : Env :=
  mkEnv None "/opt/flux"
    (fun call =>
       if existsb hasNullByte (argv call)
       then SpawnThrows (ThrownTypeError refusal)
       else SpawnChild events).

(** [{ prompt: "a\u0000b" }] *)
Definition nullBytePrompt : RawArguments :=
  {[ "prompt" := VString (String "a" (String (Str.ch 0) "b")) ]}.


(** [{ prompt: "x", model: "bogus" }] *)
Definition unlistedModelCall : RawArguments :=
  <["prompt" := VString "x"]> {[ "model" := VString "bogus" ]}.

(** [{ type: "bogus", image: "edges.png", prompt: "x" }] *)
Definition unlistedTypeCall : RawArguments :=
  <["type" := VString "bogus"]>
    (<["image" := VString "edges.png"]> {[ "prompt" := VString "x" ]}).

(** ** The constructor (index.ts, lines 19 to 43) *)

Record FluxServerConfig : Type := mkConfig {
  configFluxPath : option string;
  configPythonPath : option string
}.

(** ToBoolean on a string that may be [undefined]. *)
Definition truthyText (o : option string) : bool :=
  match o with
  | Some s => negb (String.eqb s "")
  | None => false
  end.

(** [a || b] *)
Definition orElse (a b : option string) : option string :=
  if truthyText a then a else b.

(** [config?.fluxPath || process.env.FLUX_PATH || '/Users/speed/...'] *)
Definition constructFluxPath (config : option FluxServerConfig)
    (FLUX_PATH : option string) : option string :=
  orElse (orElse (config ≫= configFluxPath) FLUX_PATH)
    (Some "/Users/speed/CascadeProjects/flux").

(** The surroundings of the handler of a server built from [config]. *)
Definition serverEnv (config : option FluxServerConfig) (FLUX_PATH : option string)
    (venv : option string) (behaviour : SpawnCall -> SpawnResult) : Env :=
  mkEnv venv (default "" (constructFluxPath config FLUX_PATH)) behaviour.

(** ** The range checks of the test suite (tests/server.test.ts) *)

(** Lines 89 to 92: [value >= 256 && value <= 2048]. *)
Definition validateDimension (value : option float) : bool :=
  match value with
  | None => true
  | Some v => Num.le 256 v && Num.le v 2048
  end.

(** Lines 103 to 106: [value >= 0 && value <= 1]. *)
Definition validateStrength (value : option float) : bool :=
  match value with
  | None => true
  | Some v => Num.le 0 v && Num.le v 1
  end.

(** A number that may be [undefined], as a value. *)
Definition ofOptionalNumber (value : option float) : JsValue :=
  match value with
  | Some v => VNumber v
  | None => VUndefined
  end.

(** ** Views of a request and of a trace *)

(** The operation that a tool name selects in the [switch]. *)
Definition lookupOperation (tool : string) : option Spec.OperationName :=
  find (fun op => String.eqb tool (Spec.operationName op)) Spec.operations.

(** Two values that the handler cannot tell apart in a field: the same
    value, or two ways of leaving the field unset. *)
Definition sameValue (v v' : JsValue) : Prop :=
  v = v' \/ (Spec.isSet v = false /\ Spec.isSet v' = false).

(** A trace up to and including its first event that is not data. *)
Fixpoint upToSettle (events : list ChildEvent) : list ChildEvent :=
  match events with
  | [] => []
  | ev :: rest => if isData ev then ev :: upToSettle rest else [ev]
  end.

(** The same surroundings with another behaviour of the processes that
    [spawn] starts. *)
Definition withChild (env : Env) (behaviour : SpawnCall -> list ChildEvent) : Env :=
  mkEnv (VIRTUAL_ENV env) (fluxPath env)
    (fun call =>
       match spawn env call with
       | SpawnThrows e => SpawnThrows e
       | SpawnChild _ => SpawnChild (behaviour call)
       end).


(** * Facts about the embedding *)

(** ** The rendering of numbers, on known values *)

Section Rendering.

Lemma toString_integers :
  map Num.toString [0; 1; 50; 100; 256; 300; 2048; 9007199254740992;
                    123456789012345680000; 1e21; 1e300]%float
  = ["0"; "1"; "50"; "100"; "256"; "300"; "2048"; "9007199254740992";
     "123456789012345680000"; "1e+21"; "1e+300"].
Proof. vm_compute. reflexivity. Qed.

Lemma toString_fractions :
  map Num.toString [0.5; 0.85; 7.5; 0.1; 1.0001; -0.0001; 0.30000000000000004;
                    0.000001; 1e-7; 1.5e-10; 5e-324; 1.7976931348623157e308]%float
  = ["0.5"; "0.85"; "7.5"; "0.1"; "1.0001"; "-0.0001"; "0.30000000000000004";
     "0.000001"; "1e-7"; "1.5e-10"; "5e-324"; "1.7976931348623157e+308"].
Proof. vm_compute. reflexivity. Qed.

Lemma toString_special :
  map Num.toString [nan; infinity; neg_infinity; (-0)%float]
  = ["NaN"; "Infinity"; "-Infinity"; "0"].
Proof. vm_compute. reflexivity. Qed.

End Rendering.

(** ** The catalogue and the schemas *)

Section Catalogue.

(** The schemas list the tools of the catalogue, with the same fields, the
    same required fields and the same enumerations. *)
Lemma catalogue_matches_schema :
  forallb (fun op => existsb (toolMatches op) tools) Spec.operations = true.
Proof. vm_compute. reflexivity. Qed.

End Catalogue.

(** ** Comparison of binary64 values *)

Section FloatOrder.

Lemma SFcompare_antisym (a b : spec_float) (c : comparison) :
  SFcompare a b = Some c -> SFcompare b a = Some (CompOpp c).
Proof.
  destruct a as [sa|sa| |sa ma ea], b as [sb|sb| |sb mb eb]; simpl;
    try discriminate;
    try (destruct sa; intros [= <-]; reflexivity);
    try (destruct sb; intros [= <-]; reflexivity);
    try (intros [= <-]; reflexivity).
  - destruct sa, sb; intros [= <-]; reflexivity.
  - intros [= <-]. f_equal.
    rewrite (Z.compare_antisym ea eb).
    change (Pos.compare_cont Eq mb ma) with (Pos.compare_cont (CompOpp Eq) mb ma).
    rewrite <- (Pos.compare_cont_antisym ma mb Eq).
    destruct sa, sb; simpl; try reflexivity;
      destruct (ea ?= eb)%Z; simpl; try reflexivity;
      destruct (Pos.compare_cont Eq ma mb); reflexivity.
Qed.

Lemma SFcompare_refl (a : spec_float) :
  a <> S754_nan -> SFcompare a a = Some Eq.
Proof.
  destruct a as [s|s| |s m e]; simpl; intros H; try congruence.
  - destruct s; reflexivity.
  - rewrite Z.compare_refl, Pos.compare_cont_refl. destruct s; reflexivity.
Qed.

Lemma is_nan_Prim2SF (x : float) :
  PrimFloat.is_nan x = true <-> Prim2SF x = S754_nan.
Proof.
  unfold PrimFloat.is_nan. rewrite FloatAxioms.eqb_spec. unfold SFeqb. split.
  - intros H. destruct (Prim2SF x) eqn:E; try reflexivity;
      rewrite SFcompare_refl in H by discriminate; discriminate.
  - intros ->. reflexivity.
Qed.

Lemma leb_not_nan_r (a b : float) :
  PrimFloat.leb a b = true -> PrimFloat.is_nan b = false.
Proof.
  rewrite leb_spec. unfold SFleb. intros H.
  destruct (PrimFloat.is_nan b) eqn:E; [|reflexivity].
  apply is_nan_Prim2SF in E. rewrite E in H.
  destruct (Prim2SF a); discriminate.
Qed.

Lemma leb_not_ltb (a b : float) :
  PrimFloat.leb a b = true -> PrimFloat.ltb b a = false.
Proof.
  rewrite leb_spec, ltb_spec. unfold SFleb, SFltb.
  destruct (SFcompare (Prim2SF a) (Prim2SF b)) as [c|] eqn:E; [|discriminate].
  rewrite (SFcompare_antisym _ _ _ E). destruct c; simpl; congruence.
Qed.

(** A number that is not below a positive bound is not zero. *)
Lemma truthy_not_below (x lo : float) :
  PrimFloat.ltb 0 lo = true ->
  Num.isNaN x = false -> Num.lt x lo = false -> Num.truthy x = true.
Proof.
  unfold Num.isNaN, Num.lt, Num.truthy, PrimFloat.is_zero.
  intros Hlo Hnan Hlt. rewrite Hnan, orb_false_r.
  destruct (PrimFloat.eqb x zero) eqn:E; [|reflexivity].
  rewrite FloatAxioms.eqb_spec in E. rewrite ltb_spec in Hlo, Hlt.
  change (Prim2SF 0) with (S754_zero false) in Hlo.
  change (Prim2SF zero) with (S754_zero false) in E.
  unfold SFeqb, SFltb in *.
  destruct (Prim2SF x) as [s|s| |s m e]; simpl in E;
    try discriminate; try (destruct s; discriminate).
  destruct (Prim2SF lo); simpl in *; congruence.
Qed.

(** With finite bounds, a number that is not finite is NaN or out of range. *)
Lemma not_finite_out_of_range (x lo hi : float) :
  SFfinite (Prim2SF lo) = true -> SFfinite (Prim2SF hi) = true ->
  PrimFloat.is_finite x = false ->
  Num.isNaN x = false -> Num.lt x lo = false -> Num.gt x hi = true.
Proof.
  unfold PrimFloat.is_finite, Num.isNaN, Num.lt, Num.gt.
  intros Hlo Hhi Hfin Hnan Hlt. rewrite Hnan in Hfin. simpl in Hfin.
  apply negb_false_iff in Hfin. unfold PrimFloat.is_infinity in Hfin.
  rewrite FloatAxioms.eqb_spec, abs_spec in Hfin.
  rewrite ltb_spec in Hlt |- *.
  change (Prim2SF infinity) with (S754_infinity false) in Hfin.
  unfold SFeqb, SFltb in *.
  destruct (Prim2SF x) as [s|s| |s m e]; simpl in Hfin;
    try discriminate; try (destruct s; discriminate).
  destruct s.
  - destruct (Prim2SF lo); simpl in *; discriminate.
  - destruct (Prim2SF hi); simpl in *; try discriminate; reflexivity.
Qed.

End FloatOrder.

(** ** The validators, case by case *)

Section Validators.

Lemma trim_empty : Str.trim "" = "".
Proof. reflexivity. Qed.

Lemma nonblank_truthy (s : string) :
  String.eqb (Str.trim s) "" = false -> truthy (VString s) = true.
Proof.
  intros H. simpl. destruct (String.eqb_spec s "") as [->|]; [|reflexivity].
  rewrite trim_empty in H. discriminate.
Qed.

Lemma validateRequiredString_cases (v : JsValue) (f : string) :
  (exists s, v = VString s /\ String.eqb (Str.trim s) "" = false
             /\ validateRequiredString v f = Ok s)
  \/ (Spec.isNonBlankString v = false
      /\ validateRequiredString v f = Throw (McpError InvalidParams (requiredMessage f))).
Proof.
  destruct v; simpl; try (right; split; reflexivity).
  destruct (String.eqb (Str.trim s) "") eqn:E.
  - right. split; reflexivity.
  - left. exists s. repeat split; auto.
Qed.

Lemma validateNumber_cases (v : JsValue) (f : string) (lo hi : float) :
  (Spec.isSet v = false /\ validateNumber v f (Some lo) (Some hi) = Ok None)
  \/ (exists x, v = VNumber x /\ Num.isNaN x = false /\ Num.lt x lo = false
                /\ Num.gt x hi = false
                /\ validateNumber v f (Some lo) (Some hi) = Ok (Some x))
  \/ (Spec.isSet v = true
      /\ match v with
         | VNumber x => Num.isNaN x || Num.lt x lo || Num.gt x hi
         | _ => true
         end = true
      /\ exists reason,
           validateNumber v f (Some lo) (Some hi)
           = Throw (McpError InvalidParams (f +:+ reason))).
Proof.
  destruct v; simpl;
    try (left; split; reflexivity);
    try (right; right; repeat split; eexists; reflexivity).
  destruct (Num.isNaN x) eqn:E1; simpl.
  { right; right. repeat split. eexists; reflexivity. }
  destruct (Num.lt x lo) eqn:E2; simpl.
  { right; right. repeat split. eexists; reflexivity. }
  destruct (Num.gt x hi) eqn:E3; simpl.
  { right; right. repeat split. eexists; reflexivity. }
  right; left. exists x. repeat split; assumption.
Qed.

End Validators.

(** ** One field at a time *)

Section Rules.

Lemma required_rule (f : Spec.Field) (v : JsValue) :
  Spec.isRequired f = true ->
  (exists a, Spec.rule f = Spec.OptionalEnum a) \/ Spec.rule f = Spec.RequiredString ->
  (rejects f v = false
   /\ exists s, v = VString s /\ truthy v = true
                /\ validateRequiredString v (Spec.fieldName f) = Ok s)
  \/ (rejects f v = true
      /\ validateRequiredString v (Spec.fieldName f)
         = Throw (McpError InvalidParams (requiredMessage (Spec.fieldName f)))).
Proof.
  intros Hreq Hrule.
  assert (Hrej : rejects f v = negb (Spec.isNonBlankString v)).
  { unfold rejects, Spec.violates.
    destruct Hrule as [[a ->] | ->]; [rewrite Hreq|]; reflexivity. }
  rewrite Hrej.
  destruct (validateRequiredString_cases v (Spec.fieldName f))
    as [(s & -> & Hs & Hv) | (Hb & Hv)].
  - left. split; [simpl; rewrite Hs; reflexivity|].
    exists s. split; [reflexivity|]. split; [apply nonblank_truthy, Hs | exact Hv].
  - right. rewrite Hb. split; [reflexivity | exact Hv].
Qed.

Lemma number_rule (n : string) (lo hi : float) (v : JsValue) :
  SFfinite (Prim2SF lo) = true -> SFfinite (Prim2SF hi) = true ->
  (rejects (Spec.number n lo hi) v = false
   /\ ((Spec.isSet v = false /\ validateNumber v n (Some lo) (Some hi) = Ok None)
       \/ exists x, v = VNumber x /\ Num.isNaN x = false /\ Num.lt x lo = false
                    /\ validateNumber v n (Some lo) (Some hi) = Ok (Some x)))
  \/ (rejects (Spec.number n lo hi) v = true
      /\ exists reason, validateNumber v n (Some lo) (Some hi)
                        = Throw (McpError InvalidParams (n +:+ reason))).
Proof.
  intros Hlo Hhi.
  change (rejects (Spec.number n lo hi) v)
    with (Spec.isSet v && negb (Spec.isFiniteInRange lo hi v)).
  destruct (validateNumber_cases v n lo hi)
    as [(Hset & Hv) | [(x & -> & Hnan & Hlt & Hgt & Hv) | (Hset & Hbad & Hv)]].
  - left. rewrite Hset. split; [reflexivity | left; split; [reflexivity | exact Hv]].
  - left. split; [|right; exists x; repeat split; assumption].
    simpl. rewrite Hlt, Hgt.
    destruct (PrimFloat.is_finite x) eqn:Hfin; [reflexivity|].
    rewrite (not_finite_out_of_range x lo hi Hlo Hhi Hfin Hnan Hlt) in Hgt.
    discriminate.
  - right. split; [|exact Hv]. rewrite Hset. simpl.
    destruct v; try reflexivity. simpl.
    unfold PrimFloat.is_finite. unfold Num.isNaN in Hbad.
    destruct (PrimFloat.is_nan x); [reflexivity|]. simpl in Hbad.
    destruct (Num.lt x lo); [rewrite andb_false_r; reflexivity|].
    simpl in Hbad. rewrite Hbad, andb_false_r. reflexivity.
Qed.

Lemma pushIfTruthy_app (l : list JsValue) (flag : string) (v : JsValue) :
  pushIfTruthy l flag v = l ++ (if truthy v then [VString flag; v] else []).
Proof. unfold pushIfTruthy. destruct (truthy v); [reflexivity | now rewrite app_nil_r]. Qed.

End Rules.

(** ** The command builders, through the schema *)

Section Builders.

Lemma rejects_enum (n : string) (a : list string) (v : JsValue) :
  rejects (Spec.enum n a) v = false.
Proof. reflexivity. Qed.

Lemma rejects_text (n : string) (v : JsValue) : rejects (Spec.text n) v = false.
Proof. reflexivity. Qed.

Ltac expose :=
  unfold builds, firstRejected, Spec.commandVector; cbn [cmdArgsFor];
  unfold generateCmdArgs, img2imgCmdArgs, inpaintCmdArgs, controlCmdArgs;
  cbn [getProp mbind Result_bind Spec.schema find flat_map];
  rewrite ?rejects_enum, ?rejects_text;
  cbv [Spec.tokens Spec.raw Spec.render emitted];
  cbn [Spec.fieldName Spec.rule Spec.required Spec.number Spec.enum Spec.text].

Ltac required_field f v :=
  let Hr := fresh "Hr" in
  let s := fresh "s" in
  let Ht := fresh "Ht" in
  let Hv := fresh "Hv" in
  destruct (required_rule f v eq_refl ltac:(first [right; reflexivity | left; eexists; reflexivity]))
    as [(Hr & s & ? & Ht & Hv) | (Hr & Hv)];
  [ subst v | ];
  cbn [Spec.fieldName Spec.required] in Hv; rewrite Hv, Hr;
  cbn [mbind Result_bind];
  [ rewrite ?Ht | eexists; reflexivity ].

Ltac number_field n lo hi v :=
  let Hr := fresh "Hr" in
  let x := fresh "x" in
  let Hv := fresh "Hv" in
  let Hset := fresh "Hset" in
  let Hnan := fresh "Hnan" in
  let Hlt := fresh "Hlt" in
  destruct (number_rule n lo hi v eq_refl eq_refl)
    as [(Hr & [(Hset & Hv) | (x & ? & Hnan & Hlt & Hv)]) | (Hr & ? & Hv)];
  [ | subst v | ];
  rewrite Hv, Hr; cbn [mbind Result_bind];
  [ rewrite Hset | cbn [Spec.isSet] | eexists; reflexivity ].

Ltac finish :=
  unfold pushIfTruthy, pushNumberIfTruthy, pushNumberIfDefined;
  repeat match goal with
    | H : Num.isNaN ?x = false, H' : Num.lt ?x ?lo = false |- context [Num.truthy ?x] =>
        rewrite (truthy_not_below x lo eq_refl H H')
    | |- context [truthy ?v] => destruct (truthy v)
    end;
  reflexivity.

Lemma generate_builds (args : RawArguments) : builds Spec.generate args.
Proof.
  expose.
  generalize (default VUndefined (args !! "prompt")),
    (default VUndefined (args !! "model")),
    (default VUndefined (args !! "aspect_ratio")),
    (default VUndefined (args !! "width")),
    (default VUndefined (args !! "height")),
    (default VUndefined (args !! "output")).
  intros vp vm va vw vh vo.
  required_field (Spec.required "prompt") vp.
  number_field "width" 256%float 2048%float vw;
    (number_field "height" 256%float 2048%float vh; finish).
Qed.

Lemma img2img_builds (args : RawArguments) : builds Spec.img2img args.
Proof.
  expose.
  generalize (default VUndefined (args !! "image")),
    (default VUndefined (args !! "prompt")),
    (default VUndefined (args !! "name")),
    (default VUndefined (args !! "model")),
    (default VUndefined (args !! "strength")),
    (default VUndefined (args !! "width")),
    (default VUndefined (args !! "height")),
    (default VUndefined (args !! "output")).
  intros vi vp vn vm vs vw vh vo.
  required_field (Spec.required "image") vi.
  required_field (Spec.required "prompt") vp.
  required_field (Spec.required "name") vn.
  number_field "strength" 0%float 1%float vs;
    (number_field "width" 256%float 2048%float vw;
     (number_field "height" 256%float 2048%float vh; finish)).
Qed.

Lemma inpaint_builds (args : RawArguments) : builds Spec.inpaint args.
Proof.
  expose.
  generalize (default VUndefined (args !! "image")),
    (default VUndefined (args !! "prompt")),
    (default VUndefined (args !! "mask_shape")),
    (default VUndefined (args !! "position")),
    (default VUndefined (args !! "output")).
  intros vi vp vm vq vo.
  required_field (Spec.required "image") vi.
  required_field (Spec.required "prompt") vp.
  finish.
Qed.

Lemma control_builds (args : RawArguments) : builds Spec.control args.
Proof.
  expose.
  generalize (default VUndefined (args !! "type")),
    (default VUndefined (args !! "image")),
    (default VUndefined (args !! "prompt")),
    (default VUndefined (args !! "steps")),
    (default VUndefined (args !! "guidance")),
    (default VUndefined (args !! "output")).
  intros vt vi vp vs vg vo.
  required_field (Spec.mkField "type" (Spec.OptionalEnum ["canny"; "depth"; "pose"]) true) vt.
  required_field (Spec.required "image") vi.
  required_field (Spec.required "prompt") vp.
  number_field "steps" 1%float 100%float vs;
    (number_field "guidance" 0%float 100%float vg; finish).
Qed.

(** Every command builder either stops at the first rejected field or
    produces the command vector of the schema. *)
Lemma cmdArgsFor_builds (op : Spec.OperationName) (args : RawArguments) :
  builds op args.
Proof.
  destruct op;
    [ apply generate_builds | apply img2img_builds
    | apply inpaint_builds | apply control_builds ].
Qed.

End Builders.

(** ** Strings *)

Section Strings.

Lemma append_nil_l (s : string) : "" +:+ s = s.
Proof. reflexivity. Qed.

Lemma append_cons (c : ascii) (s t : string) : String c s +:+ t = String c (s +:+ t).
Proof. reflexivity. Qed.

Lemma append_nil_r (s : string) : s +:+ "" = s.
Proof. induction s as [|c s IH]; [reflexivity|]. rewrite append_cons, IH. reflexivity. Qed.

Lemma append_assoc (s t u : string) : (s +:+ t) +:+ u = s +:+ (t +:+ u).
Proof.
  induction s as [|c s IH]; [reflexivity|].
  rewrite !append_cons, IH. reflexivity.
Qed.

Lemma prefix_append (s t : string) : String.prefix s (s +:+ t) = true.
Proof.
  induction s as [|c s IH]; [destruct t; reflexivity|].
  rewrite append_cons. simpl. destruct (ascii_dec c c); [exact IH | congruence].
Qed.

Lemma includes_prefix (n h : string) :
  String.prefix n h = true -> Str.includes n h = true.
Proof. intros H. destruct h; cbn [Str.includes]; rewrite H; reflexivity. Qed.

(** A string includes each of the pieces it is concatenated from. *)
Lemma includes_append (n a b : string) : Str.includes n (a +:+ n +:+ b) = true.
Proof.
  induction a as [|c a IH].
  - rewrite append_nil_l. apply includes_prefix, prefix_append.
  - rewrite append_cons. cbn [Str.includes]. rewrite IH. apply orb_true_r.
Qed.

End Strings.

(** ** The listeners of the child process *)

Section Listening.

Lemma listen_data (pre : list ChildEvent) (st : Listener) :
  forallb isData pre = true ->
  foldl onEvent st pre
  = mkListener (output st +:+ stdoutOf pre) (errorOutput st +:+ stderrOf pre) (settled st).
Proof.
  revert st. induction pre as [|ev pre IH]; intros st H; simpl.
  - rewrite !append_nil_r. destruct st; reflexivity.
  - simpl in H. apply andb_true_iff in H as [Hev Hpre].
    rewrite (IH _ Hpre).
    destruct ev; try discriminate; simpl; rewrite ?append_assoc; reflexivity.
Qed.

Lemma settle_settled (st : Listener) (p : Promise string) :
  settled st <> Pending -> settle st p = st.
Proof. unfold settle. destruct (settled st); congruence. Qed.

(** Once the promise is settled, no later event changes it. *)
Lemma settled_stable (events : list ChildEvent) (st : Listener) :
  settled st <> Pending -> settled (foldl onEvent st events) = settled st.
Proof.
  revert st. induction events as [|ev events IH]; intros st H; [reflexivity|].
  simpl. destruct ev as [d|d|msg|code]; simpl.
  - rewrite IH; [reflexivity | exact H].
  - rewrite IH; [reflexivity | exact H].
  - rewrite settle_settled by exact H. apply IH, H.
  - destruct code as [[| |]|]; rewrite settle_settled by exact H; apply IH, H.
Qed.

(** The promise is settled by the first event that is not data. *)
Lemma listen_first (pre post : list ChildEvent) (ev : ChildEvent) :
  forallb isData pre = true -> isData ev = false ->
  settled (listen (pre ++ ev :: post))
  = settled (onEvent (mkListener (stdoutOf pre) (stderrOf pre) Pending) ev).
Proof.
  intros Hpre Hev. unfold listen.
  rewrite foldl_app, (listen_data pre _ Hpre). simpl foldl.
  rewrite !append_nil_l. apply settled_stable.
  destruct ev as [d|d|msg|code]; try discriminate;
    try (destruct code as [[| |]|]); cbv [onEvent settle settled]; discriminate.
Qed.

End Listening.

(** ** The handler *)

Section Handler.

Lemma handleCall_operation (env : Env) (op : Spec.OperationName)
    (args : option RawArguments) :
  handleCall env (mkRequest (Spec.operationName op) args)
  = catchBlock (runAndRespond env (cmdArgsFor op args)).
Proof. destruct op; reflexivity. Qed.

Lemma handleCall_throw (env : Env) (op : Spec.OperationName)
    (args : option RawArguments) (code : ErrorCode) (msg : string) :
  cmdArgsFor op args = Throw (McpError code msg) ->
  handleCall env (mkRequest (Spec.operationName op) args)
  = ([], Rejected (McpError code msg)).
Proof. intros H. rewrite handleCall_operation, H. reflexivity. Qed.

Lemma child_spawn (env : Env) (call : SpawnCall) :
  child env call <> [] -> spawn env call = SpawnChild (child env call).
Proof. unfold child. destruct (spawn env call); [congruence | reflexivity]. Qed.

Lemma handleCall_spawn (env : Env) (op : Spec.OperationName)
    (args : option RawArguments) (cmdArgs : list JsValue) :
  cmdArgsFor op args = Ok cmdArgs -> cmdArgs <> [] ->
  handleCall env (mkRequest (Spec.operationName op) args)
  = ([spawnOf env cmdArgs], respond (spawnOutcome env (spawnOf env cmdArgs))).
Proof.
  intros H Hne. rewrite handleCall_operation, H.
  destruct cmdArgs as [|a rest]; [congruence|].
  unfold runAndRespond, spawnOutcome, spawnOf.
  cbn [sync mbind Async_bind runPythonCommand].
  destruct (spawn env _) as [e|events]; cbn.
  - destruct e; reflexivity.
  - destruct (settled _) as [out|e|]; cbn; try reflexivity.
    destruct (instanceofMcpError e); reflexivity.
Qed.

Lemma cmdArgsFor_Ok (op : Spec.OperationName) (args : RawArguments)
    (cmdArgs : list JsValue) :
  cmdArgsFor op (Some args) = Ok cmdArgs ->
  firstRejected op args = None /\ cmdArgs = Spec.commandVector emitted op args.
Proof.
  intros H. pose proof (cmdArgsFor_builds op args) as B. unfold builds in B.
  destruct (firstRejected op args) as [f|].
  - destruct B as [reason B]. congruence.
  - split; [reflexivity | congruence].
Qed.

(** A request without an arguments object fails on the first property
    read; the [TypeError] is not an [McpError], so it comes back as an
    ordinary error response. *)
Lemma handleCall_missing_arguments (env : Env) (op : Spec.OperationName) :
  exists key,
    handleCall env (mkRequest (Spec.operationName op) None)
    = ([], Resolved (errorResponse
                       (TypeError ("Cannot read properties of undefined (reading '"
                                     +:+ key +:+ "')")))).
Proof.
  destruct op; [exists "prompt" | exists "image" | exists "image" | exists "type"];
    reflexivity.
Qed.

End Handler.

(** ** Fields inside the command vector *)

Section Vector.

Lemma required_rule_kind (op : Spec.OperationName) (f : Spec.Field) :
  In f (Spec.schema op) -> Spec.isRequired f = true ->
  (exists a, Spec.rule f = Spec.OptionalEnum a) \/ Spec.rule f = Spec.RequiredString.
Proof.
  destruct op; simpl; intros H Hreq;
    repeat (destruct H as [<- | H]; [first [discriminate Hreq | right; reflexivity
                                          | left; eexists; reflexivity] | ]);
    destruct H.
Qed.

Lemma not_rejected (op : Spec.OperationName) (args : RawArguments) (f : Spec.Field) :
  firstRejected op args = None -> In f (Spec.schema op) ->
  rejects f (Spec.raw args f) = false.
Proof. intros H Hin. exact (find_none _ _ H f Hin). Qed.

(** Every field contributes its tokens, as one block, to the vector. *)
Lemma field_tokens_in_vector (op : Spec.OperationName) (args : RawArguments)
    (cmdArgs : list JsValue) (f : Spec.Field) :
  cmdArgsFor op (Some args) = Ok cmdArgs -> In f (Spec.schema op) ->
  exists before after, cmdArgs = before ++ Spec.tokens emitted args f ++ after.
Proof.
  intros H Hin. apply cmdArgsFor_Ok in H as [_ ->].
  apply in_split in Hin as (l1 & l2 & Hl). unfold Spec.commandVector. rewrite Hl.
  exists (VString (Spec.operationName op) :: flat_map (Spec.tokens emitted args) l1),
    (flat_map (Spec.tokens emitted args) l2).
  rewrite flat_map_app. reflexivity.
Qed.

(** A required field of a call that passed validation holds a string, and
    that string is its token. *)
Lemma required_tokens (op : Spec.OperationName) (args : RawArguments) (f : Spec.Field) :
  firstRejected op args = None -> In f (Spec.schema op) -> Spec.isRequired f = true ->
  exists s, Spec.raw args f = VString s
            /\ Spec.tokens emitted args f = [VString (Spec.cliFlag f); VString s].
Proof.
  intros H Hin Hreq.
  pose proof (required_rule_kind op f Hin Hreq) as Hkind.
  destruct (required_rule f (Spec.raw args f) Hreq Hkind)
    as [(_ & s & Hs & Ht & _) | (Hr & _)].
  - exists s. split; [exact Hs|].
    unfold Spec.tokens, emitted, Spec.render.
    destruct Hkind as [[a ->] | ->]; rewrite Ht, Hs; reflexivity.
  - rewrite (not_rejected op args f H Hin) in Hr. discriminate.
Qed.

End Vector.

(** ** Calls with the required fields only *)

Section Minimal.

Lemma find_all_false {A : Type} (p : A -> bool) (l : list A) :
  (forall x, In x l -> p x = false) -> find p l = None.
Proof.
  induction l as [|a l IH]; intros H; [reflexivity|].
  simpl. rewrite (H a (or_introl eq_refl)). apply IH.
  intros x Hx. apply H. right. exact Hx.
Qed.


Lemma unset_not_truthy (v : JsValue) : Spec.isSet v = false -> truthy v = false.
Proof. destruct v; simpl; congruence. Qed.





End Minimal.

(** ** Enumerated fields *)

Section Enumerated.

Lemma schema_names_unique (op : Spec.OperationName) (f g : Spec.Field) :
  In f (Spec.schema op) -> In g (Spec.schema op) ->
  Spec.fieldName f = Spec.fieldName g -> f = g.
Proof.
  destruct op; simpl; intros Hf Hg;
    repeat (destruct Hf as [<- | Hf]; [ | ]); try destruct Hf;
    repeat (destruct Hg as [<- | Hg]; [ | ]); try destruct Hg;
    intros E; first [reflexivity | discriminate E].
Qed.

Lemma raw_insert_eq (args : RawArguments) (f : Spec.Field) (v : JsValue) :
  Spec.raw (<[Spec.fieldName f := v]> args) f = v.
Proof. unfold Spec.raw. rewrite lookup_insert_eq. reflexivity. Qed.

Lemma raw_insert_ne (args : RawArguments) (f g : Spec.Field) (v : JsValue) :
  Spec.fieldName f <> Spec.fieldName g ->
  Spec.raw (<[Spec.fieldName f := v]> args) g = Spec.raw args g.
Proof. intros H. unfold Spec.raw. rewrite lookup_insert_ne by exact H. reflexivity. Qed.

(** No string with a non-empty trimmed form is rejected in an enumerated
    field, whether the enumeration lists it or not. *)
Lemma enum_not_rejected (f : Spec.Field) (a : list string) (s : string) :
  Spec.rule f = Spec.OptionalEnum a -> Str.trim s <> "" ->
  rejects f (VString s) = false.
Proof.
  intros Hrule Hs. apply String.eqb_neq in Hs.
  unfold rejects. rewrite Hrule. simpl. rewrite Hs. apply andb_false_r.
Qed.

Lemma enum_insert_not_rejected (op : Spec.OperationName) (args : RawArguments)
    (f : Spec.Field) (a : list string) (s : string) :
  In f (Spec.schema op) -> Spec.rule f = Spec.OptionalEnum a -> Str.trim s <> "" ->
  firstRejected op args = None ->
  firstRejected op (<[Spec.fieldName f := VString s]> args) = None.
Proof.
  intros Hin Hrule Hs Hnone. apply find_all_false. intros g Hg.
  destruct (decide (Spec.fieldName f = Spec.fieldName g)) as [E|E].
  - rewrite <- (schema_names_unique op f g Hin Hg E), raw_insert_eq.
    exact (enum_not_rejected f a s Hrule Hs).
  - rewrite (raw_insert_ne args f g _ E). exact (not_rejected op args g Hnone Hg).
Qed.

Lemma enum_tokens (args : RawArguments) (f : Spec.Field) (a : list string) :
  Spec.rule f = Spec.OptionalEnum a ->
  Spec.tokens emitted args f
  = if truthy (Spec.raw args f)
    then [VString (Spec.cliFlag f); Spec.raw args f] else [].
Proof.
  intros Hrule. unfold Spec.tokens, emitted, Spec.render. rewrite Hrule.
  reflexivity.
Qed.

Lemma flat_map_without {A B : Type} (h : A -> list B) (p : A -> bool) (l : list A) :
  (forall x, In x l -> p x = false -> h x = []) ->
  flat_map h l = flat_map h (List.filter p l).
Proof.
  induction l as [|x l IH]; intros H; [reflexivity|].
  cbn [flat_map List.filter].
  rewrite IH by (intros y Hy; apply H; right; exact Hy).
  destruct (p x) eqn:E; [reflexivity|].
  rewrite (H x (or_introl eq_refl) E). reflexivity.
Qed.

End Enumerated.

(** * The claims of the specification *)

(** C1, the claim as it stands fails: this call of [generate] passes
    validation, and its prompt holds a null byte, an argument that [spawn]
    refuses by throwing. The process cannot be spawned, and the handler
    returns an error response whose text is ["Error: "] and the text of
    that error: it names no failure category, neither ["Failed to spawn
    Python process"] nor ["Flux command failed"]. *)
Lemma spawn_refusal_has_no_category :
  cmdArgsFor Spec.generate (Some nullBytePrompt)
  = Ok [VString "generate"; VString "--prompt";
        VString (String "a" (String (Str.ch 0) "b"))]
  /\ handleCall
       (refusingNullBytes
          "The argument 'args[3]' must be a string without null bytes. Received 'a\x00b'"
          [StdoutData "ok"; CloseEvent (Some 0)])
       (mkRequest "generate" (Some nullBytePrompt))
     = ([mkSpawn "python3"
           [VString "fluxcli.py"; VString "generate"; VString "--prompt";
            VString (String "a" (String (Str.ch 0) "b"))] "/opt/flux"],
        Resolved (mkResponse
                    [mkText "text"
                       "Error: The argument 'args[3]' must be a string without null bytes. Received 'a\x00b'"]
                    (Some true)))
  /\ Str.includes "Failed to spawn Python process"
       "Error: The argument 'args[3]' must be a string without null bytes. Received 'a\x00b'"
     = false
  /\ Str.includes "Flux command failed"
       "Error: The argument 'args[3]' must be a string without null bytes. Received 'a\x00b'"
     = false.
Proof. repeat split; vm_compute; reflexivity. Qed.

(** C1, amended: take a call that passes validation; the handler calls
    [spawn] once for it. When [spawn] returns a child, let the first event
    of the child that is not data be [ev], after the data events [pre]. If
    [ev] is ['close'] with code 0, the handler returns the success
    response with the accumulated standard output. If it is ['close'] with
    any other code, or ['error'], the handler returns (and does not throw)
    an error response whose text names the failure and carries the exit
    code and the accumulated standard error, or the reason of the error.
    With exit code 1 and standard error ["boom"] the text includes both.
    When [spawn] throws instead, the handler also returns an error
    response: its text is ["Error: "] and the message of the error that
    was thrown, with no failure category. *)
Theorem handleCall_execution_outcome (env : Env) (op : Spec.OperationName)
    (args : RawArguments) (cmdArgs : list JsValue) :
  cmdArgsFor op (Some args) = Ok cmdArgs ->
  let run := handleCall env (mkRequest (Spec.operationName op) (Some args)) in
  spawned run = [spawnOf env cmdArgs]
  /\ (forall e,
         spawn env (spawnOf env cmdArgs) = SpawnThrows e ->
         outcome run
         = Resolved (mkResponse
                       [mkText "text" ("Error: " +:+ message (ofNodeError e))]
                       (Some true)))
  /\ (forall pre ev post,
         spawn env (spawnOf env cmdArgs) = SpawnChild (pre ++ ev :: post) ->
         forallb isData pre = true ->
         (ev = CloseEvent (Some 0) ->
          outcome run = Resolved (mkResponse [mkText "text" (stdoutOf pre)] None))
         /\ (forall code, ev = CloseEvent code -> code <> Some 0 ->
             exists t,
               outcome run = Resolved (mkResponse [mkText "text" t] (Some true))
               /\ t = "Error: Flux command failed (exit code " +:+ codeToString code
                        +:+ "): " +:+ stderrOf pre
               /\ Str.includes (codeToString code) t = true
               /\ Str.includes (stderrOf pre) t = true)
         /\ (forall msg, ev = ErrorEvent msg ->
             exists t,
               outcome run = Resolved (mkResponse [mkText "text" t] (Some true))
               /\ t = "Error: Failed to spawn Python process: " +:+ msg
               /\ Str.includes msg t = true)
         /\ (ev = CloseEvent (Some 1) -> stderrOf pre = "boom" ->
             exists t,
               outcome run = Resolved (mkResponse [mkText "text" t] (Some true))
               /\ Str.includes "exit code 1" t = true
               /\ Str.includes "boom" t = true)).
Proof.
  intros H run.
  assert (Hne : cmdArgs <> []).
  { apply cmdArgsFor_Ok in H as [_ ->]. discriminate. }
  assert (Hrun : run = ([spawnOf env cmdArgs],
                        respond (spawnOutcome env (spawnOf env cmdArgs)))).
  { unfold run. apply (handleCall_spawn env op (Some args) cmdArgs H Hne). }
  rewrite Hrun. clear Hrun run. unfold spawned, outcome, spawnOutcome. cbn [fst snd].
  split; [reflexivity|].
  split.
  { intros e ->. destruct e; reflexivity. }
  intros pre ev post -> Hpre.
  split.
  { intros ->. rewrite (listen_first pre post (CloseEvent (Some 0)) Hpre eq_refl). reflexivity. }
  assert (Hclose : forall code, code <> Some 0 ->
            respond (settled (listen (pre ++ CloseEvent code :: post)))
            = Resolved (mkResponse
                          [mkText "text" ("Error: Flux command failed (exit code "
                                            +:+ codeToString code +:+ "): "
                                            +:+ stderrOf pre)] (Some true))).
  { intros code Hcode. rewrite (listen_first pre post (CloseEvent code) Hpre eq_refl).
    destruct code as [[| |]|]; try congruence; reflexivity. }
  split.
  { intros code -> Hcode. eexists. split; [apply (Hclose code Hcode)|].
    split; [reflexivity|]. split.
    - change ("Error: Flux command failed (exit code " +:+ codeToString code
                +:+ "): " +:+ stderrOf pre)
        with ("Error: Flux command failed (exit code "
                +:+ codeToString code +:+ ("): " +:+ stderrOf pre)).
      apply includes_append.
    - rewrite <- (append_nil_r (stderrOf pre)) at 2.
      rewrite <- !append_assoc, append_assoc. apply includes_append. }
  split.
  { intros msg ->. exists ("Error: Failed to spawn Python process: " +:+ msg).
    rewrite (listen_first pre post (ErrorEvent msg) Hpre eq_refl).
    split; [reflexivity|]. split; [reflexivity|].
    rewrite <- (append_nil_r msg) at 2. apply includes_append. }
  intros -> Hboom. eexists. split; [apply (Hclose (Some 1)); discriminate|].
  rewrite Hboom. split; reflexivity.
Qed.

Lemma handleCall_execution_outcome_witness :
  handleCall (envOf [StdoutData "saved "; StderrData "boom"; CloseEvent (Some 1)])
    (mkRequest "generate" (Some {[ "prompt" := VString "x" ]}))
  = ([mkSpawn "python3"
        [VString "fluxcli.py"; VString "generate"; VString "--prompt"; VString "x"]
        "/opt/flux"],
     Resolved (mkResponse
                 [mkText "text" "Error: Flux command failed (exit code 1): boom"]
                 (Some true))).
Proof.
  pose proof (handleCall_execution_outcome
                (envOf [StdoutData "saved "; StderrData "boom"; CloseEvent (Some 1)])
                Spec.generate {[ "prompt" := VString "x" ]}
                [VString "generate"; VString "--prompt"; VString "x"]
                eq_refl) as (Hs & _ & Hc).
  destruct (Hc [StdoutData "saved "; StderrData "boom"] (CloseEvent (Some 1)) []
              eq_refl eq_refl) as (_ & Hcode & _).
  destruct (Hcode (Some 1) eq_refl ltac:(discriminate)) as (t & Ho & -> & _).
  apply injective_projections; [exact Hs | exact Ho].
Defined.




(** C3, the claim as it stands fails: ["bogus"] is not among the values of
    the enumerated field [model] of [generate], so these arguments fail a
    field rule of the schema; the handler all the same spawns the process
    and returns its output. *)
Lemma unlisted_model_is_spawned :
  In (Spec.enum "model" modelEnum) (Spec.schema Spec.generate)
  /\ Spec.violates (Spec.enum "model" modelEnum)
       (Spec.raw unlistedModelCall (Spec.enum "model" modelEnum)) = true
  /\ handleCall (envOf [StdoutData "ok"; CloseEvent (Some 0)])
       (mkRequest "generate" (Some unlistedModelCall))
     = ([mkSpawn "python3"
           [VString "fluxcli.py"; VString "generate"; VString "--prompt"; VString "x";
            VString "--model"; VString "bogus"] "/opt/flux"],
        Resolved (mkResponse [mkText "text" "ok"] None)).
Proof.
  split; [right; left; reflexivity|]. split; vm_compute; reflexivity.
Qed.

(** C3, amended: take a call whose arguments fail a rule of the schema
    other than membership in an enumeration: a required field that is not
    a string with a non-empty trimmed form, or a numeric field that is
    supplied and is not a number within its bounds. The handler then
    throws [McpError(InvalidParams)] for the first such field in schema
    order; it spawns no process and returns no response. The error names
    that field: its message reads ["MCP error -32602: "], then the name of
    the field, then the reason. *)
Theorem rejected_field_aborts (env : Env) (op : Spec.OperationName)
    (args : RawArguments) (f : Spec.Field) :
  In f (Spec.schema op) ->
  Spec.violates f (Spec.raw args f) = true ->
  (forall a, Spec.rule f = Spec.OptionalEnum a ->
             Spec.isRequired f = true
             /\ Spec.isNonBlankString (Spec.raw args f) = false) ->
  exists g reason e,
    firstRejected op args = Some g
    /\ handleCall env (mkRequest (Spec.operationName op) (Some args)) = ([], Rejected e)
    /\ e = McpError InvalidParams (Spec.fieldName g +:+ reason)
    /\ message e = "MCP error -32602: " +:+ Spec.fieldName g +:+ reason
    /\ Str.includes (Spec.fieldName g) (message e) = true
    /\ forall response,
         outcome (handleCall env (mkRequest (Spec.operationName op) (Some args)))
         <> Resolved response.
Proof.
  intros Hin Hviol Henum.
  assert (Hrej : rejects f (Spec.raw args f) = true).
  { unfold rejects. destruct (Spec.rule f) eqn:Hrule; try exact Hviol.
    destruct (Henum allowed eq_refl) as [-> ->]. reflexivity. }
  pose proof (cmdArgsFor_builds op args) as B. unfold builds in B.
  destruct (firstRejected op args) as [g|] eqn:Hfirst.
  - destruct B as [reason B].
    exists g, reason, (McpError InvalidParams (Spec.fieldName g +:+ reason)).
    assert (Hm : message (McpError InvalidParams (Spec.fieldName g +:+ reason))
                 = "MCP error -32602: " +:+ Spec.fieldName g +:+ reason).
    { reflexivity. }
    split; [reflexivity|].
    split; [apply handleCall_throw, B|].
    split; [reflexivity|].
    split; [exact Hm|].
    split; [rewrite Hm; apply includes_append|].
    intros response. rewrite (handleCall_throw env op (Some args) _ _ B). discriminate.
  - rewrite (not_rejected op args f Hfirst Hin) in Hrej. discriminate.
Qed.

Lemma rejected_field_aborts_witness :
  exists g reason e,
    firstRejected Spec.img2img
      (<["image" := VString "in.png"]> {[ "strength" := VNumber 1.0001 ]}) = Some g
    /\ handleCall (envOf [StdoutData "ok"; CloseEvent (Some 0)])
         (mkRequest "img2img"
            (Some (<["image" := VString "in.png"]> {[ "strength" := VNumber 1.0001 ]})))
       = ([], Rejected e)
    /\ e = McpError InvalidParams (Spec.fieldName g +:+ reason)
    /\ message e = "MCP error -32602: " +:+ Spec.fieldName g +:+ reason
    /\ Str.includes (Spec.fieldName g) (message e) = true
    /\ forall response,
         outcome (handleCall (envOf [StdoutData "ok"; CloseEvent (Some 0)])
                    (mkRequest "img2img"
                       (Some (<["image" := VString "in.png"]>
                                {[ "strength" := VNumber 1.0001 ]}))))
         <> Resolved response.
Proof.
  apply (rejected_field_aborts
           (envOf [StdoutData "ok"; CloseEvent (Some 0)]) Spec.img2img
           (<["image" := VString "in.png"]> {[ "strength" := VNumber 1.0001 ]})
           (Spec.number "strength" 0 1)).
  - simpl. auto 10.
  - vm_compute. reflexivity.
  - intros a H. discriminate H.
Defined.

(** C4: a name outside the four operations makes the handler throw
    [McpError(MethodNotFound)], whatever the arguments; nothing is spawned
    and no response is returned. *)
Theorem handleCall_unknown_operation (env : Env) (tool : string)
    (args : option RawArguments) :
  (forall op, tool <> Spec.operationName op) ->
  handleCall env (mkRequest tool args)
  = ([], Rejected (McpError MethodNotFound ("Unknown tool: " +:+ tool)))
  /\ forall response, outcome (handleCall env (mkRequest tool args)) <> Resolved response.
Proof.
  intros H.
  assert (E : handleCall env (mkRequest tool args)
              = ([], Rejected (McpError MethodNotFound ("Unknown tool: " +:+ tool)))).
  { unfold handleCall. cbn [name].
    destruct (String.eqb_spec tool "generate") as [->|_];
      [exfalso; exact (H Spec.generate eq_refl)|].
    destruct (String.eqb_spec tool "img2img") as [->|_];
      [exfalso; exact (H Spec.img2img eq_refl)|].
    destruct (String.eqb_spec tool "inpaint") as [->|_];
      [exfalso; exact (H Spec.inpaint eq_refl)|].
    destruct (String.eqb_spec tool "control") as [->|_];
      [exfalso; exact (H Spec.control eq_refl)|].
    reflexivity. }
  split; [exact E|]. intros response. rewrite E. discriminate.
Qed.

Lemma handleCall_unknown_operation_witness :
  handleCall (envOf [StdoutData "ok"; CloseEvent (Some 0)]) (mkRequest "bogus" (Some ∅))
  = ([], Rejected (McpError MethodNotFound "Unknown tool: bogus")).
Proof.
  apply (handleCall_unknown_operation
           (envOf [StdoutData "ok"; CloseEvent (Some 0)]) "bogus" (Some ∅)).
  intros []; discriminate.
Defined.

(** C5, the claim as it stands fails: ["bogus"] is not among the values
    [canny], [depth] and [pose] of the field [type] of [control], and the
    handler does not throw: it spawns the process with [--type bogus] and
    returns its output. *)
Lemma unlisted_type_is_forwarded :
  Spec.isMember ["canny"; "depth"; "pose"] (VString "bogus") = false
  /\ handleCall (envOf [StdoutData "ok"; CloseEvent (Some 0)])
       (mkRequest "control" (Some unlistedTypeCall))
     = ([mkSpawn "python3"
           [VString "fluxcli.py"; VString "control"; VString "--type"; VString "bogus";
            VString "--image"; VString "edges.png"; VString "--prompt"; VString "x"]
           "/opt/flux"],
        Resolved (mkResponse [mkText "text" "ok"] None)).
Proof. split; vm_compute; reflexivity. Qed.

(** C5, amended: the handler does not compare the value of an enumerated
    field with its enumeration. A call that passes validation still passes
    it when an enumerated field is set to any string with a non-empty
    trimmed form, listed or not, and that string then follows the flag of
    the field in the command vector. When an enumerated field of a call
    that passes validation is unset, the vector holds no token for it.
    [control] with [type] unset is rejected, [type] being required. *)
Theorem enumeration_is_not_checked :
  (forall op f a args cmdArgs s,
      In f (Spec.schema op) -> Spec.rule f = Spec.OptionalEnum a ->
      cmdArgsFor op (Some args) = Ok cmdArgs ->
      Str.trim s <> "" ->
      exists cmdArgs' before after,
        cmdArgsFor op (Some (<[Spec.fieldName f := VString s]> args)) = Ok cmdArgs'
        /\ cmdArgs' = before ++ [VString (Spec.cliFlag f); VString s] ++ after)
  /\ (forall op f a args cmdArgs,
         In f (Spec.schema op) -> Spec.rule f = Spec.OptionalEnum a ->
         cmdArgsFor op (Some args) = Ok cmdArgs ->
         Spec.isSet (Spec.raw args f) = false ->
         cmdArgs
         = VString (Spec.operationName op)
             :: flat_map (Spec.tokens emitted args)
                  (List.filter
                     (fun g => negb (String.eqb (Spec.fieldName g) (Spec.fieldName f)))
                     (Spec.schema op)))
  /\ (forall env args,
         Spec.isSet (default VUndefined (args !! "type")) = false ->
         handleCall env (mkRequest "control" (Some args))
         = ([], Rejected (McpError InvalidParams
                            "type is required and must be a non-empty string"))).
Proof.
  split.
  { intros op f a args cmdArgs s Hin Hrule H Hs.
    apply cmdArgsFor_Ok in H as [Hnone _].
    pose proof (enum_insert_not_rejected op args f a s Hin Hrule Hs Hnone) as Hnone'.
    pose proof (cmdArgsFor_builds op (<[Spec.fieldName f := VString s]> args)) as B.
    unfold builds in B. rewrite Hnone' in B.
    destruct (field_tokens_in_vector op _ _ f B Hin) as (before & after & E).
    eexists. exists before, after. split; [exact B|].
    rewrite E, (enum_tokens _ f a Hrule), raw_insert_eq.
    apply String.eqb_neq in Hs.
    rewrite (nonblank_truthy s Hs). reflexivity. }
  split.
  { intros op f a args cmdArgs Hin Hrule H Hunset.
    apply cmdArgsFor_Ok in H as [_ ->]. unfold Spec.commandVector. f_equal.
    apply flat_map_without. intros g Hg E.
    apply negb_false_iff, String.eqb_eq in E.
    rewrite (schema_names_unique op g f Hg Hin E), (enum_tokens args f a Hrule).
    rewrite (unset_not_truthy _ Hunset). reflexivity. }
  intros env args Hunset.
  apply (handleCall_throw env Spec.control (Some args)).
  cbn [cmdArgsFor]. unfold controlCmdArgs. cbn [getProp mbind Result_bind].
  destruct (default VUndefined (args !! "type")); try discriminate Hunset; reflexivity.
Qed.

Lemma enumeration_is_not_checked_witness :
  exists cmdArgs' before after,
    cmdArgsFor Spec.inpaint
      (Some (<["mask_shape" := VString "triangle"]>
               (<["image" := VString "in.png"]> {[ "prompt" := VString "a door" ]})))
    = Ok cmdArgs'
    /\ cmdArgs' = before ++ [VString "--mask-shape"; VString "triangle"] ++ after.
Proof.
  apply (proj1 enumeration_is_not_checked Spec.inpaint
           (Spec.enum "mask_shape" ["circle"; "rectangle"]) ["circle"; "rectangle"]
           (<["image" := VString "in.png"]> {[ "prompt" := VString "a door" ]})
           [VString "inpaint"; VString "--image"; VString "in.png";
            VString "--prompt"; VString "a door"]
           "triangle").
  - simpl. auto 10.
  - reflexivity.
  - vm_compute. reflexivity.
  - discriminate.
Defined.

(** C6: [validateNumber] (the validateOptionalNumber of the specification)
    returns [undefined] for [undefined] and for [null], whatever the
    bounds; it returns the number itself for every number [x] with
    [lo <= x <= hi], both bounds included, and so returns [0] for [0]
    between 0 and 100. Between 256 and 2048 it accepts 256 and 2048 and
    rejects 255 and 2049 with [InvalidParams]; between 0 and 1 it accepts
    0 and 1 and rejects -0.0001 and 1.0001. *)
Theorem validateNumber_inclusive_bounds :
  (forall f min max,
      validateNumber VUndefined f min max = Ok None
      /\ validateNumber VNull f min max = Ok None)
  /\ (forall f lo hi x,
         Num.le lo x = true -> Num.le x hi = true ->
         validateNumber (VNumber x) f (Some lo) (Some hi) = Ok (Some x))
  /\ (forall f, validateNumber (VNumber 0) f (Some 0%float) (Some 100%float)
                = Ok (Some 0%float))
  /\ (forall f,
         validateNumber (VNumber 256) f (Some 256%float) (Some 2048%float)
         = Ok (Some 256%float)
         /\ validateNumber (VNumber 2048) f (Some 256%float) (Some 2048%float)
            = Ok (Some 2048%float)
         /\ validateNumber (VNumber 255) f (Some 256%float) (Some 2048%float)
            = Throw (McpError InvalidParams (f +:+ " must be at least 256"))
         /\ validateNumber (VNumber 2049) f (Some 256%float) (Some 2048%float)
            = Throw (McpError InvalidParams (f +:+ " must be at most 2048")))
  /\ (forall f,
         validateNumber (VNumber 0) f (Some 0%float) (Some 1%float) = Ok (Some 0%float)
         /\ validateNumber (VNumber 1) f (Some 0%float) (Some 1%float) = Ok (Some 1%float)
         /\ validateNumber (VNumber (-0.0001)) f (Some 0%float) (Some 1%float)
            = Throw (McpError InvalidParams (f +:+ " must be at least 0"))
         /\ validateNumber (VNumber 1.0001) f (Some 0%float) (Some 1%float)
            = Throw (McpError InvalidParams (f +:+ " must be at most 1"))).
Proof.
  split; [intros; split; reflexivity|].
  split.
  { intros f lo hi x Hlo Hhi. unfold validateNumber, Num.isNaN, Num.lt, Num.gt.
    rewrite (leb_not_nan_r lo x Hlo), (leb_not_ltb lo x Hlo), (leb_not_ltb x hi Hhi).
    reflexivity. }
  split; [intros f; vm_compute; reflexivity|].
  split; intros f; repeat split; vm_compute; reflexivity.
Qed.

Lemma validateNumber_inclusive_bounds_witness :
  validateNumber (VNumber 512) "width" (Some 256%float) (Some 2048%float)
  = Ok (Some 512%float).
Proof.
  apply (proj1 (proj2 validateNumber_inclusive_bounds)); reflexivity.
Defined.

(** C7: [validateRequiredString v f] returns a string exactly when [v] is
    a string whose trimmed form is not empty, and the string it returns is
    [v] itself; in every other case it throws [InvalidParams]. It throws
    for the string of three spaces and for [null]. *)
Theorem validateRequiredString_iff (v : JsValue) (f : string) :
  ((exists s, validateRequiredString v f = Ok s)
   <-> (exists s, v = VString s /\ Str.trim s <> ""))
  /\ (forall s, validateRequiredString v f = Ok s -> v = VString s)
  /\ (~ (exists s, v = VString s /\ Str.trim s <> "") ->
      validateRequiredString v f
      = Throw (McpError InvalidParams
                 (f +:+ " is required and must be a non-empty string")))
  /\ validateRequiredString (VString "   ") f
     = Throw (McpError InvalidParams
                (f +:+ " is required and must be a non-empty string"))
  /\ validateRequiredString VNull f
     = Throw (McpError InvalidParams
                (f +:+ " is required and must be a non-empty string")).
Proof.
  destruct (validateRequiredString_cases v f) as [(s & -> & Hs & Hv) | (Hb & Hv)].
  - apply String.eqb_neq in Hs.
    split; [split; intros _; exists s; [split; [reflexivity | exact Hs] | exact Hv]|].
    split; [intros s' H; congruence|].
    split; [intros Hn; exfalso; apply Hn; exists s; split; [reflexivity | exact Hs]|].
    split; reflexivity.
  - split.
    { split.
      - intros [s H]. congruence.
      - intros (s & -> & Hs). simpl in Hb. apply negb_false_iff in Hb.
        apply String.eqb_eq in Hb. contradiction. }
    split; [intros s H; congruence|].
    split; [intros _; exact Hv|].
    split; reflexivity.
Qed.

Lemma validateRequiredString_iff_witness :
  validateRequiredString (VNumber 123) "prompt"
  = Throw (McpError InvalidParams "prompt is required and must be a non-empty string").
Proof.
  apply (proj1 (proj2 (proj2 (validateRequiredString_iff (VNumber 123) "prompt")))).
  intros (s & H & _). discriminate H.
Defined.

(** C8, the claim as it stands fails: without bounds, positive infinity
    is a present value that is not a finite number, and [validateNumber]
    returns it. *)
Lemma validateNumber_accepts_infinity :
  PrimFloat.is_finite infinity = false
  /\ validateNumber (VNumber infinity) "width" None None = Ok (Some infinity).
Proof. split; reflexivity. Qed.

(** C8, amended: every present value that is not a number, or is [NaN],
    makes [validateNumber] throw [InvalidParams], whatever the bounds and
    also without bounds, as for [NaN] itself. Any other number, the
    infinities included, is returned unless a supplied bound excludes
    it. *)
Theorem validateNumber_rejects_non_numbers :
  (forall v f min max,
      Spec.isSet v = true ->
      (forall x, v = VNumber x -> Num.isNaN x = true) ->
      validateNumber v f min max
      = Throw (McpError InvalidParams (f +:+ " must be a valid number")))
  /\ (forall f, validateNumber (VNumber nan) f None None
                = Throw (McpError InvalidParams (f +:+ " must be a valid number")))
  /\ (forall x f min max,
         Num.isNaN x = false ->
         (forall lo, min = Some lo -> Num.lt x lo = false) ->
         (forall hi, max = Some hi -> Num.gt x hi = false) ->
         validateNumber (VNumber x) f min max = Ok (Some x)).
Proof.
  split.
  { intros v f min max Hset Hnum. destruct v; try discriminate; try reflexivity.
    simpl. rewrite (Hnum x eq_refl). reflexivity. }
  split; [reflexivity|].
  intros x f min max Hnan Hmin Hmax. simpl. rewrite Hnan.
  destruct min as [lo|]; [rewrite (Hmin lo eq_refl)|];
    (destruct max as [hi|]; [rewrite (Hmax hi eq_refl)|]); reflexivity.
Qed.

Lemma validateNumber_rejects_non_numbers_witness :
  validateNumber (VString "100") "width" None None
  = Throw (McpError InvalidParams "width must be a valid number").
Proof.
  apply (proj1 validateNumber_rejects_non_numbers);
    [reflexivity | intros x H; discriminate H].
Defined.

(** C9: called with a missing or an empty argument vector,
    [runPythonCommand] spawns nothing and rejects with
    ["No command arguments provided"]. A process that cannot be started
    rejects with ["Failed to spawn Python process: ..."], which is a
    different description whatever the reason. *)
Theorem runPythonCommand_no_arguments (env : Env) :
  runPythonCommand env None = ([], Rejected (Error "No command arguments provided"))
  /\ runPythonCommand env (Some [])
     = ([], Rejected (Error "No command arguments provided"))
  /\ (forall args pre post msg,
         args <> [] ->
         child env (spawnOf env args) = pre ++ ErrorEvent msg :: post ->
         forallb isData pre = true ->
         runPythonCommand env (Some args)
         = ([spawnOf env args],
            Rejected (Error ("Failed to spawn Python process: " +:+ msg))))
  /\ (forall msg,
         Error "No command arguments provided"
         <> Error ("Failed to spawn Python process: " +:+ msg)).
Proof.
  split; [reflexivity|]. split; [reflexivity|]. split.
  - intros args pre post msg Hne Hchild Hpre.
    destruct args as [|a rest]; [congruence|].
    assert (Hspawn : spawn env (spawnOf env (a :: rest))
                     = SpawnChild (pre ++ ErrorEvent msg :: post)).
    { rewrite <- Hchild. apply child_spawn. rewrite Hchild. destruct pre; discriminate. }
    unfold runPythonCommand. fold (spawnOf env (a :: rest)).
    rewrite Hspawn, (listen_first pre post (ErrorEvent msg) Hpre eq_refl). reflexivity.
  - intros msg H. vm_compute in H. discriminate H.
Qed.

Lemma runPythonCommand_no_arguments_witness :
  runPythonCommand
    (envOf [ErrorEvent "spawn python3 ENOENT"; CloseEvent (Some (-2))])
    (Some [VString "generate"])
  = ([mkSpawn "python3" [VString "fluxcli.py"; VString "generate"] "/opt/flux"],
     Rejected (Error "Failed to spawn Python process: spawn python3 ENOENT")).
Proof.
  exact (proj1 (proj2 (proj2 (runPythonCommand_no_arguments
                                (envOf [ErrorEvent "spawn python3 ENOENT";
                                        CloseEvent (Some (-2))]))))
           [VString "generate"] [] [CloseEvent (Some (-2))] "spawn python3 ENOENT"
           ltac:(discriminate) eq_refl eq_refl).
Defined.

(** C10: for a string whose trimmed form is not empty,
    [validateRequiredString] returns the string as it was given. So in a
    call that passes validation every required field holds a string, and
    the handler builds and spawns a command vector in which that string
    follows the flag of the field just as the caller wrote it; a prompt of
    ["  x  "] keeps its spaces. *)
Theorem required_string_verbatim :
  (forall s f, Str.trim s <> "" -> validateRequiredString (VString s) f = Ok s)
  /\ (forall op args f,
         firstRejected op args = None ->
         In f (Spec.schema op) -> Spec.isRequired f = true ->
         exists s before after,
           Spec.raw args f = VString s
           /\ cmdArgsFor op (Some args)
              = Ok (before ++ [VString (Spec.cliFlag f); VString s] ++ after)
           /\ forall env,
                spawned (handleCall env (mkRequest (Spec.operationName op) (Some args)))
                = [spawnOf env
                     (before ++ [VString (Spec.cliFlag f); VString s] ++ after)])
  /\ (forall env,
         spawned (handleCall env
                    (mkRequest "generate" (Some {[ "prompt" := VString "  x  " ]})))
         = [spawnOf env [VString "generate"; VString "--prompt"; VString "  x  "]]).
Proof.
  split.
  { intros s f Hs. apply String.eqb_neq in Hs. simpl. rewrite Hs. reflexivity. }
  split.
  { intros op args f Hnone Hin Hreq.
    pose proof (cmdArgsFor_builds op args) as B. unfold builds in B.
    rewrite Hnone in B.
    destruct (field_tokens_in_vector op args _ f B Hin) as (before & after & Hv).
    destruct (required_tokens op args f Hnone Hin Hreq) as (s & Hs & Ht).
    rewrite Ht in Hv. rewrite Hv in B.
    exists s, before, after. split; [exact Hs|]. split; [exact B|].
    intros env. rewrite (handleCall_spawn env op (Some args) _ B); [reflexivity|].
    destruct before; discriminate. }
  intros env.
  rewrite (handleCall_spawn env Spec.generate
             (Some {[ "prompt" := VString "  x  " ]})
             [VString "generate"; VString "--prompt"; VString "  x  "]);
    [reflexivity | reflexivity | discriminate].
Qed.

Lemma required_string_verbatim_witness :
  validateRequiredString (VString " a cat ") "prompt" = Ok " a cat "
  /\ exists s before after,
       Spec.raw (<["image" := VString " in.png"]> {[ "prompt" := VString " a cat " ]})
         (Spec.required "prompt") = VString s
       /\ cmdArgsFor Spec.inpaint
            (Some (<["image" := VString " in.png"]> {[ "prompt" := VString " a cat " ]}))
          = Ok (before ++ [VString "--prompt"; VString s] ++ after)
       /\ forall env,
            spawned (handleCall env
                       (mkRequest "inpaint"
                          (Some (<["image" := VString " in.png"]>
                                   {[ "prompt" := VString " a cat " ]}))))
            = [spawnOf env (before ++ [VString "--prompt"; VString s] ++ after)].
Proof.
  split.
  - apply (proj1 required_string_verbatim). discriminate.
  - apply (proj1 (proj2 required_string_verbatim) Spec.inpaint
             (<["image" := VString " in.png"]> {[ "prompt" := VString " a cat " ]})
             (Spec.required "prompt")).
    + vm_compute. reflexivity.
    + cbn [Spec.schema In]. auto 10.
    + reflexivity.
Defined.

(** * Further properties of the code *)

(** ** Dispatch *)

Section Dispatch.

Lemma lookupOperation_name (tool : string) (op : Spec.OperationName) :
  lookupOperation tool = Some op -> tool = Spec.operationName op.
Proof.
  intros H. apply find_some in H as [_ H]. apply String.eqb_eq in H. exact H.
Qed.

Lemma lookupOperation_operationName (op : Spec.OperationName) :
  lookupOperation (Spec.operationName op) = Some op.
Proof. destruct op; reflexivity. Qed.

(** The [switch] of the handler selects by name. *)
Lemma handleCall_dispatch (env : Env) (request : CallToolRequest) :
  handleCall env request
  = match lookupOperation (name request) with
    | Some op => catchBlock (runAndRespond env (cmdArgsFor op (arguments request)))
    | None =>
        ([], Rejected (McpError MethodNotFound ("Unknown tool: " +:+ name request)))
    end.
Proof.
  destruct request as [tool args]. unfold handleCall, lookupOperation.
  cbn [name arguments Spec.operations find Spec.operationName].
  destruct (String.eqb tool "generate"); [reflexivity|].
  destruct (String.eqb tool "img2img"); [reflexivity|].
  destruct (String.eqb tool "inpaint"); [reflexivity|].
  destruct (String.eqb tool "control"); reflexivity.
Qed.

(** What a command builder can do: return a vector that starts with the
    name of the operation, reject a field, or fail to read the arguments. *)
Lemma cmdArgsFor_cases (op : Spec.OperationName) (args : option RawArguments) :
  (exists rest, cmdArgsFor op args = Ok (VString (Spec.operationName op) :: rest))
  \/ (exists msg, cmdArgsFor op args = Throw (McpError InvalidParams msg))
  \/ (args = None /\ exists msg, cmdArgsFor op args = Throw (TypeError msg)).
Proof.
  destruct args as [args|].
  - pose proof (cmdArgsFor_builds op args) as B. unfold builds in B.
    destruct (firstRejected op args) as [f|].
    + right; left. destruct B as [reason B]. eexists. exact B.
    + left. eexists. exact B.
  - right; right. split; [reflexivity|]. destruct op; eexists; reflexivity.
Qed.

(** The run of a known operation, by what its command builder does. *)
Lemma run_cases (env : Env) (op : Spec.OperationName) (args : option RawArguments) :
  let run := catchBlock (runAndRespond env (cmdArgsFor op args)) in
  (exists rest,
      cmdArgsFor op args = Ok (VString (Spec.operationName op) :: rest)
      /\ run = ([spawnOf env (VString (Spec.operationName op) :: rest)],
                respond (spawnOutcome env
                   (spawnOf env (VString (Spec.operationName op) :: rest)))))
  \/ (exists msg, run = ([], Rejected (McpError InvalidParams msg)))
  \/ (args = None
      /\ exists msg, run = ([], Resolved (errorResponse (TypeError msg)))).
Proof.
  intros run. unfold run.
  destruct (cmdArgsFor_cases op args) as [[rest H] | [[msg H] | [Hn [msg H]]]].
  - left. exists rest. split; [exact H|].
    rewrite <- (handleCall_operation env op args).
    apply handleCall_spawn; [exact H | discriminate].
  - right; left. exists msg. rewrite H. reflexivity.
  - right; right. split; [exact Hn|]. exists msg. rewrite H. reflexivity.
Qed.

(** The executor rejects with a plain [Error] only. *)
Lemma listen_not_McpError (events : list ChildEvent) (e : Exn) :
  settled (listen events) = Rejected e -> instanceofMcpError e = false.
Proof.
  unfold listen.
  assert (G : forall st, (forall e', settled st = Rejected e' -> instanceofMcpError e' = false) ->
                         settled (foldl onEvent st events) = Rejected e ->
                         instanceofMcpError e = false).
  { induction events as [|ev events IH]; intros st Hst H; [exact (Hst e H)|].
    simpl in H. apply (IH (onEvent st ev)); [|exact H].
    intros e' He'. destruct ev as [d|d|msg|code]; simpl in He'.
    - exact (Hst e' He').
    - exact (Hst e' He').
    - unfold settle in He'. destruct (settled st) eqn:Es; simpl in He';
        first [ congruence | apply Hst; congruence
              | injection He' as <-; reflexivity ].
    - destruct code as [[| |]|]; unfold settle in He';
        destruct (settled st) eqn:Es; simpl in He';
        first [ congruence | apply Hst; congruence
              | injection He' as <-; reflexivity ]. }
  apply G. intros e' He'. discriminate He'.
Qed.

(** Nor does [spawn] throw a protocol error. *)
Lemma spawnOutcome_not_McpError (env : Env) (call : SpawnCall) (e : Exn) :
  spawnOutcome env call = Rejected e -> instanceofMcpError e = false.
Proof.
  unfold spawnOutcome. destruct (spawn env call) as [t|events].
  - intros H. injection H as <-. destruct t; reflexivity.
  - apply listen_not_McpError.
Qed.

End Dispatch.

(** ** Every call, whatever its name and arguments *)

Section EveryCall.

Lemma listen_pending (events : list ChildEvent) :
  settled (listen events) = Pending <-> forallb isData events = true.
Proof.
  split.
  - intros H. destruct (forallb isData events) eqn:E; [reflexivity|exfalso].
    assert (S : exists pre ev post,
               events = pre ++ ev :: post
               /\ forallb isData pre = true /\ isData ev = false).
    { clear H. induction events as [|ev events IH]; [discriminate E|].
      simpl in E. destruct (isData ev) eqn:Hev.
      - destruct (IH E) as (pre & ev' & post & -> & Hpre & Hev').
        exists (ev :: pre), ev', post. repeat split; [|exact Hev'].
        simpl. rewrite Hev, Hpre. reflexivity.
      - exists [], ev, events. repeat split. exact Hev. }
    destruct S as (pre & ev & post & -> & Hpre & Hev).
    rewrite (listen_first pre post ev Hpre Hev) in H.
    destruct ev as [d|d|msg|[[| |]|]]; try discriminate Hev; discriminate H.
  - intros H. unfold listen. rewrite (listen_data events _ H). reflexivity.
Qed.

Lemma listen_upToSettle (events : list ChildEvent) :
  settled (listen (upToSettle events)) = settled (listen events).
Proof.
  unfold listen. generalize (mkListener "" "" Pending).
  induction events as [|ev events IH]; intros st; [reflexivity|].
  simpl. destruct (isData ev) eqn:Hev.
  - simpl. apply IH.
  - simpl. destruct (settled st) eqn:Es.
    + rewrite !settled_stable by
        (destruct ev as [d|d|msg|[[| |]|]]; try discriminate Hev;
         simpl; unfold settle; rewrite Es; simpl; congruence).
      reflexivity.
    + rewrite !settled_stable by
        (destruct ev as [d|d|msg|[[| |]|]]; try discriminate Hev;
         simpl; unfold settle; rewrite Es; simpl; congruence).
      reflexivity.
    + symmetry. apply settled_stable.
      destruct ev as [d|d|msg|[[| |]|]]; try discriminate Hev;
        simpl; unfold settle; rewrite Es; simpl; discriminate.
Qed.

(** X1: a call spawns at most one process, and always the same way: the
    interpreter of [pythonPath], in the directory [fluxPath], with
    [fluxcli.py] and the name of the tool as first arguments. *)
Theorem handleCall_spawns_one (env : Env) (request : CallToolRequest)
    (call : SpawnCall) :
  In call (spawned (handleCall env request)) ->
  spawned (handleCall env request) = [call]
  /\ command call = pythonPath env
  /\ cwd call = fluxPath env
  /\ exists rest,
       argv call = VString "fluxcli.py" :: VString (name request) :: rest.
Proof.
  rewrite handleCall_dispatch.
  destruct (lookupOperation (name request)) as [op|] eqn:L; [|intros []].
  apply lookupOperation_name in L. rewrite L.
  destruct (run_cases env op (arguments request))
    as [(rest & _ & ->) | [(msg & ->) | (_ & msg & ->)]].
  - intros [<- | []]. repeat split. exists rest. reflexivity.
  - intros [].
  - intros [].
Qed.

Lemma handleCall_spawns_one_witness :
  spawned (handleCall (mkEnv (Some "/venv") "/srv/flux" (fun _ => SpawnChild []))
             (mkRequest "inpaint"
                (Some (<["image" := VString "in.png"]> {[ "prompt" := VString "a door" ]}))))
  = [mkSpawn "/venv/bin/python"
       [VString "fluxcli.py"; VString "inpaint"; VString "--image"; VString "in.png";
        VString "--prompt"; VString "a door"] "/srv/flux"].
Proof.
  apply (handleCall_spawns_one (mkEnv (Some "/venv") "/srv/flux" (fun _ => SpawnChild []))).
  left. reflexivity.
Defined.

(** X2: the handler throws [McpError] and nothing else, and only before
    any process is spawned: [MethodNotFound] for a name that is none of
    the four tools, [InvalidParams] for one of them. *)
Theorem handleCall_throws_before_spawn (env : Env) (request : CallToolRequest)
    (e : Exn) :
  outcome (handleCall env request) = Rejected e ->
  spawned (handleCall env request) = []
  /\ ((lookupOperation (name request) = None
       /\ e = McpError MethodNotFound ("Unknown tool: " +:+ name request))
      \/ (exists op msg,
             lookupOperation (name request) = Some op
             /\ e = McpError InvalidParams msg)).
Proof.
  rewrite handleCall_dispatch.
  destruct (lookupOperation (name request)) as [op|] eqn:L.
  - destruct (run_cases env op (arguments request))
      as [(rest & _ & ->) | [(msg & ->) | (_ & msg & ->)]]; unfold outcome, spawned;
      cbn [fst snd]; intros H.
    + exfalso. unfold respond in H.
      destruct (spawnOutcome _ _) as [out|e0|] eqn:S; try discriminate H.
      rewrite (spawnOutcome_not_McpError _ _ e0 S) in H. discriminate H.
    + injection H as <-. split; [reflexivity|]. right. exists op, msg. split; reflexivity.
    + discriminate H.
  - intros H. injection H as <-. split; [reflexivity|]. left. split; reflexivity.
Qed.

Lemma handleCall_throws_before_spawn_witness :
  spawned (handleCall (envOf [CloseEvent (Some 0)])
             (mkRequest "control" (Some {[ "type" := VString "canny" ]}))) = [].
Proof.
  apply (handleCall_throws_before_spawn (envOf [CloseEvent (Some 0)])
           (mkRequest "control" (Some {[ "type" := VString "canny" ]}))
           (McpError InvalidParams "image is required and must be a non-empty string")).
  reflexivity.
Defined.

(** X3: a response that the handler returns holds exactly one text item.
    Without [isError] a process was spawned; otherwise [isError] is
    [true] and the text starts with ["Error: "]. *)
Theorem handleCall_response_shape (env : Env) (request : CallToolRequest)
    (response : ToolResponse) :
  outcome (handleCall env request) = Resolved response ->
  exists t,
    content response = [mkText "text" t]
    /\ ((isError response = None /\ spawned (handleCall env request) <> [])
        \/ (isError response = Some true /\ String.prefix "Error: " t = true)).
Proof.
  rewrite handleCall_dispatch.
  destruct (lookupOperation (name request)) as [op|] eqn:L; [|discriminate].
  destruct (run_cases env op (arguments request))
    as [(rest & _ & ->) | [(msg & ->) | (_ & msg & ->)]]; unfold outcome, spawned;
    cbn [fst snd]; intros H.
  - unfold respond in H.
    destruct (spawnOutcome _ _) as [out|e0|] eqn:S; try discriminate H.
    + injection H as <-. exists out. split; [reflexivity|]. left.
      split; [reflexivity | discriminate].
    + destruct (instanceofMcpError e0); [discriminate H|]. injection H as <-.
      eexists. split; [reflexivity|]. right. split; [reflexivity|].
      apply prefix_append.
  - discriminate H.
  - injection H as <-. eexists. split; [reflexivity|]. right.
    split; [reflexivity | apply prefix_append].
Qed.

Lemma handleCall_response_shape_witness :
  exists t,
    content (mkResponse [mkText "text" "done"] None) = [mkText "text" t]
    /\ ((isError (mkResponse [mkText "text" "done"] None) = None
         /\ spawned (handleCall (envOf [StdoutData "done"; CloseEvent (Some 0)])
                       (mkRequest "generate" (Some {[ "prompt" := VString "x" ]}))) <> [])
        \/ (isError (mkResponse [mkText "text" "done"] None) = Some true
            /\ String.prefix "Error: " t = true)).
Proof.
  apply (handleCall_response_shape (envOf [StdoutData "done"; CloseEvent (Some 0)])
           (mkRequest "generate" (Some {[ "prompt" := VString "x" ]}))).
  reflexivity.
Defined.

(** X4: the handler sets no time limit. A call stays pending exactly when
    it passed validation, [spawn] returned a child for it, and the child
    emits neither ['close'] nor ['error']. When [spawn] throws instead,
    the call is answered at once. *)
Theorem handleCall_pending_iff (env : Env) (request : CallToolRequest) :
  outcome (handleCall env request) = Pending
  <-> exists op cmdArgs events,
        lookupOperation (name request) = Some op
        /\ cmdArgsFor op (arguments request) = Ok cmdArgs
        /\ spawn env (spawnOf env cmdArgs) = SpawnChild events
        /\ forallb isData events = true.
Proof.
  rewrite handleCall_dispatch. split.
  - destruct (lookupOperation (name request)) as [op|] eqn:L; [|discriminate].
    destruct (run_cases env op (arguments request))
      as [(rest & Hb & ->) | [(msg & ->) | (_ & msg & ->)]]; unfold outcome;
      cbn [snd]; intros H; try discriminate H.
    unfold respond, spawnOutcome in H.
    destruct (spawn env _) as [t|events] eqn:Hspawn.
    { destruct t; discriminate H. }
    exists op. eexists. exists events.
    split; [reflexivity|]. split; [exact Hb|]. split; [exact Hspawn|].
    apply listen_pending.
    destruct (settled _) as [out|e0|]; [discriminate H| |reflexivity].
    destruct (instanceofMcpError e0); discriminate H.
  - intros (op & cmdArgs & events & -> & Hb & Hspawn & Hdata).
    assert (Hne : cmdArgs <> []).
    { destruct (cmdArgsFor_cases op (arguments request))
        as [[rest H] | [[msg H] | [_ [msg H]]]]; congruence. }
    rewrite <- (handleCall_operation env op (arguments request)).
    rewrite (handleCall_spawn env op _ cmdArgs Hb Hne). unfold outcome, spawnOutcome.
    cbn [snd]. rewrite Hspawn.
    apply listen_pending in Hdata. rewrite Hdata. reflexivity.
Qed.

Lemma handleCall_pending_iff_witness :
  outcome (handleCall (envOf [StdoutData "working"; StderrData "50%"])
             (mkRequest "generate" (Some {[ "prompt" := VString "x" ]}))) = Pending.
Proof.
  apply (proj2 (handleCall_pending_iff (envOf [StdoutData "working"; StderrData "50%"])
                  (mkRequest "generate" (Some {[ "prompt" := VString "x" ]})))).
  exists Spec.generate, [VString "generate"; VString "--prompt"; VString "x"],
    [StdoutData "working"; StderrData "50%"].
  repeat split.
Defined.

(** X5: what the process emits after its first ['close'] or ['error'] has
    no effect: the call ends as if the trace stopped there. *)
Theorem handleCall_first_settle_wins (env : Env) (request : CallToolRequest) :
  handleCall (withChild env (fun call => upToSettle (child env call))) request
  = handleCall env request.
Proof.
  rewrite !handleCall_dispatch.
  destruct (lookupOperation (name request)) as [op|]; [|reflexivity].
  f_equal. unfold runAndRespond.
  destruct (cmdArgsFor op (arguments request)) as [[|a rest]|e]; try reflexivity.
  cbn [sync mbind Async_bind runPythonCommand withChild spawn pythonPath
         VIRTUAL_ENV fluxPath].
  unfold child. destruct (spawn env _) as [t|events]; [reflexivity|].
  rewrite listen_upToSettle. reflexivity.
Qed.

End EveryCall.

(** ** What the handler reads from the arguments *)

Section Reading.

Lemma validateNumber_unset (v : JsValue) (f : string) (lo hi : option float) :
  Spec.isSet v = false -> validateNumber v f lo hi = Ok None.
Proof. destruct v; try discriminate; reflexivity. Qed.

Lemma validateRequiredString_unset (v v' : JsValue) (f : string) :
  Spec.isSet v = false -> Spec.isSet v' = false ->
  validateRequiredString v f = validateRequiredString v' f.
Proof. destruct v, v'; try discriminate; reflexivity. Qed.

Ltac same_field H f :=
  let S := fresh "S" in
  let a := fresh "a" in
  let b := fresh "b" in
  pose proof (H f ltac:(simpl; auto 10)) as S;
  unfold Spec.raw in S;
  cbn [Spec.fieldName Spec.required Spec.number Spec.enum Spec.text] in S;
  revert S;
  match goal with
  | |- sameValue ?x ?y -> _ => generalize x, y; intros a b S
  end.

Ltac use_same :=
  repeat match goal with
    | S : sameValue ?a ?b |- _ =>
        let Ha := fresh "Ha" in
        let Hb := fresh "Hb" in
        destruct S as [S | [Ha Hb]];
        [ rewrite S; clear S
        | rewrite ?(validateNumber_unset a _ _ _ Ha), ?(validateNumber_unset b _ _ _ Hb),
            ?(unset_not_truthy a Ha), ?(unset_not_truthy b Hb),
            ?(validateRequiredString_unset a b _ Ha Hb);
          clear Ha Hb ]
    end.

(** A command builder reads the fields of its schema and nothing else,
    and does not tell [null] from [undefined]. *)
Lemma cmdArgsFor_ext (op : Spec.OperationName) (args args' : RawArguments) :
  (forall f, In f (Spec.schema op) -> sameValue (Spec.raw args f) (Spec.raw args' f)) ->
  cmdArgsFor op (Some args) = cmdArgsFor op (Some args').
Proof.
  intros H. destruct op; cbn [cmdArgsFor];
    unfold generateCmdArgs, img2imgCmdArgs, inpaintCmdArgs, controlCmdArgs,
      pushIfTruthy;
    cbn [getProp mbind Result_bind].
  - same_field H (Spec.required "prompt").
    same_field H (Spec.enum "model" modelEnum).
    same_field H (Spec.enum "aspect_ratio" ["1:1"; "4:3"; "3:4"; "16:9"; "9:16"]).
    same_field H (Spec.number "width" 256 2048).
    same_field H (Spec.number "height" 256 2048).
    same_field H (Spec.text "output").
    clear H; use_same; reflexivity.
  - same_field H (Spec.required "image").
    same_field H (Spec.required "prompt").
    same_field H (Spec.required "name").
    same_field H (Spec.enum "model" modelEnum).
    same_field H (Spec.number "strength" 0 1).
    same_field H (Spec.number "width" 256 2048).
    same_field H (Spec.number "height" 256 2048).
    same_field H (Spec.text "output").
    clear H; use_same; reflexivity.
  - same_field H (Spec.required "image").
    same_field H (Spec.required "prompt").
    same_field H (Spec.enum "mask_shape" ["circle"; "rectangle"]).
    same_field H (Spec.enum "position" ["center"; "ground"]).
    same_field H (Spec.text "output").
    clear H; use_same; reflexivity.
  - same_field H (Spec.mkField "type" (Spec.OptionalEnum ["canny"; "depth"; "pose"]) true).
    same_field H (Spec.required "image").
    same_field H (Spec.required "prompt").
    same_field H (Spec.number "steps" 1 100).
    same_field H (Spec.number "guidance" 0 100).
    same_field H (Spec.text "output").
    clear H; use_same; reflexivity.
Qed.

Lemma handleCall_ext (env : Env) (op : Spec.OperationName) (args args' : RawArguments) :
  (forall f, In f (Spec.schema op) -> sameValue (Spec.raw args f) (Spec.raw args' f)) ->
  handleCall env (mkRequest (Spec.operationName op) (Some args))
  = handleCall env (mkRequest (Spec.operationName op) (Some args')).
Proof.
  intros H. rewrite !handleCall_operation, (cmdArgsFor_ext op args args' H).
  reflexivity.
Qed.

(** X6: a key of the arguments that is not a field of the operation is
    ignored: with or without it, the call ends the same way. *)
Theorem handleCall_ignores_other_keys (env : Env) (op : Spec.OperationName)
    (args : RawArguments) (key : string) (v : JsValue) :
  (forall f, In f (Spec.schema op) -> Spec.fieldName f <> key) ->
  handleCall env (mkRequest (Spec.operationName op) (Some (<[key := v]> args)))
  = handleCall env (mkRequest (Spec.operationName op) (Some args)).
Proof.
  intros H. apply handleCall_ext. intros f Hf. left.
  unfold Spec.raw. rewrite lookup_insert_ne; [reflexivity|].
  intros E. exact (H f Hf (eq_sym E)).
Qed.

Lemma handleCall_ignores_other_keys_witness :
  handleCall (envOf [StdoutData "ok"; CloseEvent (Some 0)])
    (mkRequest "inpaint"
       (Some (<["width" := VNumber 1]>
                (<["image" := VString "in.png"]> {[ "prompt" := VString "a door" ]}))))
  = handleCall (envOf [StdoutData "ok"; CloseEvent (Some 0)])
      (mkRequest "inpaint"
         (Some (<["image" := VString "in.png"]> {[ "prompt" := VString "a door" ]}))).
Proof.
  apply (handleCall_ignores_other_keys
           (envOf [StdoutData "ok"; CloseEvent (Some 0)]) Spec.inpaint).
  simpl. intros f [<- | [<- | [<- | [<- | [<- | []]]]]]; discriminate.
Defined.

(** X7: a field given as [null] is a field left out: removing the key
    does not change how the call ends, for required and optional fields
    alike. *)
Theorem handleCall_null_is_missing (env : Env) (op : Spec.OperationName)
    (args : RawArguments) (key : string) :
  args !! key = Some VNull ->
  handleCall env (mkRequest (Spec.operationName op) (Some (delete key args)))
  = handleCall env (mkRequest (Spec.operationName op) (Some args)).
Proof.
  intros H. apply handleCall_ext. intros f Hf. unfold Spec.raw.
  destruct (decide (Spec.fieldName f = key)) as [->|E].
  - right. rewrite lookup_delete_eq, H. split; reflexivity.
  - left. rewrite lookup_delete_ne by congruence. reflexivity.
Qed.

Lemma handleCall_null_is_missing_witness :
  handleCall (envOf [StdoutData "ok"; CloseEvent (Some 0)])
    (mkRequest "generate"
       (Some (delete "width" (<["width" := VNull]> {[ "prompt" := VString "x" ]}))))
  = handleCall (envOf [StdoutData "ok"; CloseEvent (Some 0)])
      (mkRequest "generate"
         (Some (<["width" := VNull]> {[ "prompt" := VString "x" ]}))).
Proof.
  apply (handleCall_null_is_missing
           (envOf [StdoutData "ok"; CloseEvent (Some 0)]) Spec.generate).
  reflexivity.
Defined.

End Reading.

(** ** The tokens of the command vector *)

Section Tokens.




End Tokens.

(** ** The validator of numbers, read backwards *)

Section NumberOrder.

Lemma SFcompare_total (a b : spec_float) :
  a <> S754_nan -> b <> S754_nan -> exists c, SFcompare a b = Some c.
Proof.
  destruct a, b; simpl; intros Ha Hb; try congruence; eexists; reflexivity.
Qed.

(** On numbers, [a <= b] is the negation of [b < a]. *)
Lemma leb_negb_ltb (a b : float) :
  PrimFloat.is_nan a = false -> PrimFloat.is_nan b = false ->
  PrimFloat.leb a b = negb (PrimFloat.ltb b a).
Proof.
  intros Ha Hb. rewrite leb_spec, ltb_spec. unfold SFleb, SFltb.
  assert (Ha' : Prim2SF a <> S754_nan).
  { intros E. apply is_nan_Prim2SF in E. congruence. }
  assert (Hb' : Prim2SF b <> S754_nan).
  { intros E. apply is_nan_Prim2SF in E. congruence. }
  destruct (SFcompare_total _ _ Ha' Hb') as [c Hc].
  rewrite Hc, (SFcompare_antisym _ _ _ Hc). destruct c; reflexivity.
Qed.

Lemma leb_nan_r (a b : float) : PrimFloat.is_nan b = true -> PrimFloat.leb a b = false.
Proof.
  intros H. destruct (PrimFloat.leb a b) eqn:E; [|reflexivity].
  rewrite (leb_not_nan_r a b E) in H. discriminate H.
Qed.

Lemma leb_nan_l (a b : float) : PrimFloat.is_nan a = true -> PrimFloat.leb a b = false.
Proof.
  intros H. apply is_nan_Prim2SF in H. rewrite leb_spec, H. reflexivity.
Qed.

(** X9: what [validateNumber] returns is never out of range. It returns
    [undefined] only for [undefined] and [null]; a number it returns is
    the value it was given, is not [NaN], is not below [min] and not
    above [max]; against a bound that is a number this is [min <= x],
    [x <= max]. *)
Theorem validateNumber_sound (v : JsValue) (f : string) (min max : option float)
    (r : option float) :
  validateNumber v f min max = Ok r ->
  match r with
  | None => Spec.isSet v = false
  | Some x =>
      v = VNumber x /\ Num.isNaN x = false
      /\ (forall lo, min = Some lo ->
            Num.lt x lo = false /\ (Num.isNaN lo = false -> Num.le lo x = true))
      /\ (forall hi, max = Some hi ->
            Num.gt x hi = false /\ (Num.isNaN hi = false -> Num.le x hi = true))
  end.
Proof.
  destruct v; simpl; try discriminate; try (intros [= <-]; reflexivity).
  destruct (Num.isNaN x) eqn:Hnan; [discriminate|].
  destruct min as [lo|]; destruct max as [hi|]; simpl;
    repeat match goal with
      | |- context [Num.lt x ?l] => destruct (Num.lt x l) eqn:?; simpl; [discriminate|]
      | |- context [Num.gt x ?h] => destruct (Num.gt x h) eqn:?; simpl; [discriminate|]
      end;
    intros [= <-]; (split; [reflexivity|]); (split; [exact Hnan|]);
    split; intros b [= <-]; split; try assumption; intros Hb;
    unfold Num.le, Num.lt, Num.gt, Num.isNaN in *;
    rewrite leb_negb_ltb by assumption;
    match goal with H : PrimFloat.ltb _ _ = false |- _ => rewrite H end; reflexivity.
Qed.

Lemma validateNumber_sound_witness :
  VNumber 0.85 = VNumber 0.85 /\ Num.isNaN 0.85 = false
  /\ (forall lo, Some 0%float = Some lo ->
        Num.lt 0.85 lo = false /\ (Num.isNaN lo = false -> Num.le lo 0.85 = true))
  /\ (forall hi, Some 1%float = Some hi ->
        Num.gt 0.85 hi = false /\ (Num.isNaN hi = false -> Num.le 0.85 hi = true)).
Proof.
  exact (validateNumber_sound (VNumber 0.85) "strength" (Some 0%float) (Some 1%float)
           (Some 0.85%float) eq_refl).
Defined.

(** X10: the range checks that the test suite writes out agree with the
    validator of the handler: [validateDimension] and [validateStrength]
    accept a value exactly when [validateNumber] returns for it, with the
    bounds 256 and 2048, and 0 and 1. *)
Theorem test_ranges_agree (value : option float) (f : string) :
  (validateDimension value = true
   <-> exists r, validateNumber (ofOptionalNumber value) f
                   (Some 256%float) (Some 2048%float) = Ok r)
  /\ (validateStrength value = true
      <-> exists r, validateNumber (ofOptionalNumber value) f
                      (Some 0%float) (Some 1%float) = Ok r).
Proof.
  assert (G : forall lo hi x,
             PrimFloat.is_nan lo = false -> PrimFloat.is_nan hi = false ->
             Num.le lo x && Num.le x hi = true
             <-> exists r, validateNumber (VNumber x) f (Some lo) (Some hi) = Ok r).
  { intros lo hi x Hlo Hhi. simpl. unfold Num.le, Num.isNaN, Num.lt, Num.gt.
    destruct (PrimFloat.is_nan x) eqn:Hx.
    - rewrite (leb_nan_r lo x Hx). simpl. split; [discriminate|]. intros [r H]. discriminate H.
    - rewrite (leb_negb_ltb lo x Hlo Hx), (leb_negb_ltb x hi Hx Hhi).
      destruct (PrimFloat.ltb x lo); simpl.
      + split; [discriminate|]. intros [r H]. discriminate H.
      + destruct (PrimFloat.ltb hi x); simpl.
        * split; [discriminate|]. intros [r H]. discriminate H.
        * split; [intros _; eexists; reflexivity | reflexivity]. }
  destruct value as [x|]; simpl.
  - split; apply G; reflexivity.
  - split; (split; [intros _; eexists; reflexivity | reflexivity]).
Qed.

Lemma test_ranges_agree_witness :
  exists r, validateNumber (ofOptionalNumber (Some 512%float)) "width"
              (Some 256%float) (Some 2048%float) = Ok r.
Proof.
  apply (proj1 (proj1 (test_ranges_agree (Some 512%float) "width"))). reflexivity.
Defined.

End NumberOrder.

(** ** The catalogue and the handler *)

Section CatalogueAndHandler.

Lemma lookupOperation_catalogue (tool : string) :
  In tool (map toolName tools) <-> exists op, lookupOperation tool = Some op.
Proof.
  unfold lookupOperation. cbn [map tools toolName Spec.operations find Spec.operationName In].
  destruct (String.eqb_spec tool "generate") as [->|N1]; [split; eauto|].
  destruct (String.eqb_spec tool "img2img") as [->|N2]; [split; eauto 6|].
  destruct (String.eqb_spec tool "inpaint") as [->|N3]; [split; eauto 6|].
  destruct (String.eqb_spec tool "control") as [->|N4]; [split; eauto 6|].
  split; [intros [E | [E | [E | [E | []]]]]; congruence | intros [op E]; discriminate E].
Qed.

(** X11: the names that [ListTools] advertises are the names that the
    call handler knows: for a tool of the catalogue the handler never
    answers [MethodNotFound], and for every other name it does. *)
Theorem catalogue_names_are_dispatched (env : Env) (tool : string)
    (args : option RawArguments) :
  In tool (map toolName tools)
  <-> outcome (handleCall env (mkRequest tool args))
      <> Rejected (McpError MethodNotFound ("Unknown tool: " +:+ tool)).
Proof.
  rewrite lookupOperation_catalogue, handleCall_dispatch. cbn [name arguments].
  destruct (lookupOperation tool) as [op|] eqn:L.
  - split; [intros _ | intros _; eauto].
    destruct (run_cases env op args)
      as [(rest & _ & ->) | [(msg & ->) | (_ & msg & ->)]]; unfold outcome; cbn [snd];
      try discriminate.
    unfold respond. destruct (spawnOutcome _ _) as [out|e0|] eqn:S; try discriminate.
    rewrite (spawnOutcome_not_McpError _ _ e0 S). discriminate.
  - split; [intros [op E]; discriminate E | intros H; exfalso; apply H; reflexivity].
Qed.

Lemma catalogue_names_are_dispatched_witness :
  outcome (handleCall (envOf [CloseEvent (Some 0)]) (mkRequest "control" None))
  <> Rejected (McpError MethodNotFound ("Unknown tool: " +:+ "control")).
Proof.
  apply (proj1 (catalogue_names_are_dispatched (envOf [CloseEvent (Some 0)])
                  "control" None)).
  simpl. auto 10.
Defined.





(** Setting a field to a value that its rule accepts keeps a call valid. *)
Lemma insert_accepted (op : Spec.OperationName) (args : RawArguments)
    (key : string) (v : JsValue) (f : Spec.Field) :
  find (fun g => String.eqb (Spec.fieldName g) key) (Spec.schema op) = Some f ->
  rejects f v = false ->
  firstRejected op args = None ->
  firstRejected op (<[key := v]> args) = None.
Proof.
  intros Hfind Hrej Hnone. apply find_some in Hfind as [Hin Hname].
  apply String.eqb_eq in Hname. subst key.
  apply find_all_false. intros g Hg.
  destruct (decide (Spec.fieldName f = Spec.fieldName g)) as [E|E].
  - rewrite <- (schema_names_unique op f g Hin Hg E), raw_insert_eq. exact Hrej.
  - rewrite (raw_insert_ne args f g _ E). exact (not_rejected op args g Hnone Hg).
Qed.

(** X13: every default that the catalogue advertises is a value that the
    handler accepts: a call that passes validation still passes it when
    a property is set to its advertised default. *)
Theorem catalogue_defaults_accepted (op : Spec.OperationName) (t : Tool)
    (p : Property) (d : JsValue) (args : RawArguments) (cmdArgs : list JsValue) :
  In t tools -> toolName t = Spec.operationName op ->
  In p (properties t) -> propDefault p = Some d ->
  cmdArgsFor op (Some args) = Ok cmdArgs ->
  exists cmdArgs',
    cmdArgsFor op (Some (<[propName p := d]> args)) = Ok cmdArgs'.
Proof.
  intros Ht Hname Hp Hd H. apply cmdArgsFor_Ok in H as [Hnone _].
  assert (G : exists f,
             find (fun g => String.eqb (Spec.fieldName g) (propName p)) (Spec.schema op)
             = Some f /\ rejects f d = false).
  { destruct Ht as [<- | [<- | [<- | [<- | []]]]];
      destruct op; try discriminate Hname; cbn [properties] in Hp;
      repeat (destruct Hp as [<- | Hp];
              [ first [ discriminate Hd
                      | injection Hd as <-; eexists; split; [reflexivity | vm_compute; reflexivity] ]
              | ]);
      destruct Hp. }
  destruct G as (f & Hfind & Hrej).
  pose proof (insert_accepted op args (propName p) d f Hfind Hrej Hnone) as Hnone'.
  pose proof (cmdArgsFor_builds op (<[propName p := d]> args)) as B.
  unfold builds in B. rewrite Hnone' in B. eexists. exact B.
Qed.

Lemma catalogue_defaults_accepted_witness :
  exists cmdArgs',
    cmdArgsFor Spec.control
      (Some (<["steps" := VNumber 50]>
               (<["type" := VString "canny"]>
                  (<["image" := VString "edges.png"]> {[ "prompt" := VString "x" ]}))))
    = Ok cmdArgs'.
Proof.
  apply (catalogue_defaults_accepted Spec.control
           (mkTool "control"
              [ mkProperty "type" "string" (Some ["canny"; "depth"; "pose"]) None;
                mkProperty "image" "string" None None;
                mkProperty "prompt" "string" None None;
                mkProperty "steps" "number" None (Some (VNumber 50));
                mkProperty "guidance" "number" None None;
                mkProperty "output" "string" None None ]
              [ "type"; "image"; "prompt" ])
           (mkProperty "steps" "number" None (Some (VNumber 50))) (VNumber 50)
           (<["type" := VString "canny"]>
              (<["image" := VString "edges.png"]> {[ "prompt" := VString "x" ]}))
           [VString "control"; VString "--type"; VString "canny";
            VString "--image"; VString "edges.png"; VString "--prompt"; VString "x"]).
  - simpl. auto 10.
  - reflexivity.
  - simpl. auto 10.
  - reflexivity.
  - vm_compute. reflexivity.
Defined.

End CatalogueAndHandler.

(** ** The constructor and the arguments object *)

Section Construction.

Lemma spawned_cwd (env : Env) (request : CallToolRequest) (call : SpawnCall) :
  In call (spawned (handleCall env request)) -> cwd call = fluxPath env.
Proof.
  rewrite handleCall_dispatch.
  destruct (lookupOperation (name request)) as [op|]; [|intros []].
  destruct (run_cases env op (arguments request))
    as [(rest & _ & ->) | [(msg & ->) | (_ & msg & ->)]].
  - intros [<- | []]. reflexivity.
  - intros [].
  - intros [].
Qed.

(** X14: a server works in the first non-empty path among
    [config.fluxPath], [FLUX_PATH] and the built-in default: an empty
    string counts as no path. Every process of every call is spawned in
    that directory, which is never empty. *)
Theorem constructor_working_directory (config : option FluxServerConfig)
    (FLUX_PATH venv : option string) (behaviour : SpawnCall -> SpawnResult)
    (request : CallToolRequest) (call : SpawnCall) :
  In call (spawned (handleCall (serverEnv config FLUX_PATH venv behaviour) request)) ->
  cwd call <> ""
  /\ constructFluxPath config FLUX_PATH = Some (cwd call)
  /\ cwd call
     = match config ≫= configFluxPath, FLUX_PATH with
       | Some p, other =>
           if String.eqb p ""
           then match other with
                | Some q =>
                    if String.eqb q "" then "/Users/speed/CascadeProjects/flux" else q
                | None => "/Users/speed/CascadeProjects/flux"
                end
           else p
       | None, Some q =>
           if String.eqb q "" then "/Users/speed/CascadeProjects/flux" else q
       | None, None => "/Users/speed/CascadeProjects/flux"
       end.
Proof.
  intros H. apply spawned_cwd in H. rewrite H. clear H.
  unfold serverEnv, constructFluxPath, orElse, truthyText. cbn [fluxPath].
  destruct (config ≫= configFluxPath) as [p|]; destruct FLUX_PATH as [q|];
    repeat (match goal with
            | |- context [String.eqb ?s ""] => destruct (String.eqb_spec s "")
            end; cbn [negb default]);
    repeat split;
    first [assumption | reflexivity | discriminate | congruence].
Qed.

Lemma constructor_working_directory_witness :
  constructFluxPath (Some (mkConfig (Some "") None)) (Some "/srv/flux") = Some "/srv/flux".
Proof.
  assert (H : In (mkSpawn "python3"
                    [VString "fluxcli.py"; VString "generate"; VString "--prompt"; VString "x"]
                    "/srv/flux")
                (spawned (handleCall
                            (serverEnv (Some (mkConfig (Some "") None)) (Some "/srv/flux")
                               None (fun _ => SpawnChild []))
                            (mkRequest "generate" (Some {[ "prompt" := VString "x" ]})))))
    by (left; reflexivity).
  exact (proj1 (proj2 (constructor_working_directory _ _ _ _ _ _ H))).
Defined.

(** X15: a request for one of the four tools that carries no arguments
    object is not a validation failure: the handler returns an ordinary
    error response with the text of the [TypeError] of its first property
    read. With an empty object instead, the same first field is rejected
    with [InvalidParams]. Neither spawns a process. *)
Theorem missing_arguments_object (env : Env) (op : Spec.OperationName) :
  exists f rest,
    Spec.schema op = f :: rest
    /\ handleCall env (mkRequest (Spec.operationName op) None)
       = ([], Resolved (mkResponse
                          [mkText "text"
                             ("Error: Cannot read properties of undefined (reading '"
                                +:+ Spec.fieldName f +:+ "')")]
                          (Some true)))
    /\ handleCall env (mkRequest (Spec.operationName op) (Some ∅))
       = ([], Rejected (McpError InvalidParams
                          (Spec.fieldName f
                             +:+ " is required and must be a non-empty string"))).
Proof.
  destruct op; eexists; eexists; (split; [reflexivity|]); split; reflexivity.
Qed.

End Construction.
